(** * Avatar: the procedural animator of the blackboard avatar

    A shallow embedding of the per-frame update [useFrame] of the
    [Avatar] component (components/Avatar.tsx) and of the part of its
    render tree that depends on the behavioural state.

    Numbers.  The component computes with JavaScript numbers.  A JavaScript
    number is modelled as a real number or one of the three special values
    [NaN], [+Infinity], [-Infinity]; the operators and the [Math] functions
    follow ECMAScript on the special values and are exact on the reals
    (rounding to binary64, overflow and the sign of zero are not
    represented).  Where a branch turns on a comparison at its threshold
    the last digits decide: the dead zone of the locomotion is given a
    second time, on binary64 numbers ([Binary64], on [spec_float] of the
    Standard Library), and the statements about it are made there.  At the
    other thresholds (the edge of the board, the distance at which the
    elbow angle leaves 0, the bounds a smoothing step can round past) the
    statements on the reals keep a margin, and a computation in [Binary64]
    shows what the rounding does inside it.

    three.js.  [Vector3] and [MathUtils.lerp] are modelled from their
    definitions in three.js.  The scene-graph transforms ([localToWorld],
    [worldToLocal], [lookAt]) are not modelled: the shoulder position they
    produce is an input of the frame, and the spine yaw and lean, which are
    computed from [worldToLocal], are left out of the animator state.

    The file has the definitions first: numbers, vectors, the component
    and the predicates of the statements; the properties follow. *)

From Stdlib Require Import Reals Lra Lia List Bool Arith String.
From Stdlib Require Import ZArith SpecFloat.
Import ListNotations.

Local Open Scope R_scope.

(** ** JavaScript numbers *)

Module JS.

Inductive number : Type :=
| Fin (r : R)
| PosInf
| NegInf
| NaN.

Definition isNaN (x : number) : bool :=
  match x with NaN => true | _ => false end.

Definition isFinite (x : number) : bool :=
  match x with Fin _ => true | _ => false end.

(** Unary minus. *)
Definition neg (x : number) : number :=
  match x with
  | Fin r => Fin (- r)
  | PosInf => NegInf
  | NegInf => PosInf
  | NaN => NaN
  end.

(** [x + y] *)
Definition add (x y : number) : number :=
  match x, y with
  | NaN, _ | _, NaN => NaN
  | Fin a, Fin b => Fin (a + b)
  | PosInf, NegInf | NegInf, PosInf => NaN
  | PosInf, _ | _, PosInf => PosInf
  | NegInf, _ | _, NegInf => NegInf
  end.

(** [x - y] *)
Definition sub (x y : number) : number := add x (neg y).

(** The sign of a real, as a three-way test. *)
Definition Rsign (r : R) : comparison :=
  if Rlt_dec 0 r then Gt else if Rlt_dec r 0 then Lt else Eq.

(** An infinity of the given sign; a zero sign gives [NaN] (infinity times
    zero). *)
Definition signedInf (s : comparison) : number :=
  match s with Gt => PosInf | Lt => NegInf | Eq => NaN end.

(** [x * y] *)
Definition mul (x y : number) : number :=
  match x, y with
  | NaN, _ | _, NaN => NaN
  | Fin a, Fin b => Fin (a * b)
  | PosInf, Fin b => signedInf (Rsign b)
  | NegInf, Fin b => signedInf (CompOpp (Rsign b))
  | Fin a, PosInf => signedInf (Rsign a)
  | Fin a, NegInf => signedInf (CompOpp (Rsign a))
  | PosInf, PosInf | NegInf, NegInf => PosInf
  | PosInf, NegInf | NegInf, PosInf => NegInf
  end.

(** [x / y].  A zero divisor is taken as a positive zero. *)
Definition div (x y : number) : number :=
  match x, y with
  | NaN, _ | _, NaN => NaN
  | Fin a, Fin b =>
      if Req_dec_T b 0 then signedInf (Rsign a) else Fin (a / b)
  | Fin _, PosInf | Fin _, NegInf => Fin 0
  | PosInf, Fin b => if Rlt_dec b 0 then NegInf else PosInf
  | NegInf, Fin b => if Rlt_dec b 0 then PosInf else NegInf
  | _, _ => NaN
  end.

(** [x ** 2] *)
Definition sq (x : number) : number := mul x x.

(** [x < y]; false as soon as one side is [NaN]. *)
Definition ltb (x y : number) : bool :=
  match x, y with
  | NaN, _ | _, NaN => false
  | Fin a, Fin b => if Rlt_dec a b then true else false
  | NegInf, NegInf => false
  | NegInf, _ => true
  | _, NegInf => false
  | PosInf, _ => false
  | Fin _, PosInf => true
  end.

(** [x > y] *)
Definition gtb (x y : number) : bool := ltb y x.

(** [Math.min(x, y)] *)
Definition Math_min (x y : number) : number :=
  match x, y with
  | NaN, _ | _, NaN => NaN
  | _, _ => if ltb x y then x else y
  end.

(** [Math.max(x, y)] *)
Definition Math_max (x y : number) : number :=
  match x, y with
  | NaN, _ | _, NaN => NaN
  | _, _ => if ltb x y then y else x
  end.

(** [Math.abs(x)] *)
Definition Math_abs (x : number) : number :=
  match x with
  | Fin r => Fin (Rabs r)
  | PosInf | NegInf => PosInf
  | NaN => NaN
  end.

(** [Math.sqrt(x)] *)
Definition Math_sqrt (x : number) : number :=
  match x with
  | Fin r => if Rlt_dec r 0 then NaN else Fin (sqrt r)
  | PosInf => PosInf
  | NegInf | NaN => NaN
  end.

(** [Math.sin(x)] *)
Definition Math_sin (x : number) : number :=
  match x with
  | Fin r => Fin (sin r)
  | _ => NaN
  end.

(** [Math.acos(x)]: [NaN] outside [-1, 1]. *)
Definition Math_acos (x : number) : number :=
  match x with
  | Fin r =>
      if Rlt_dec r (-1) then NaN
      else if Rlt_dec 1 r then NaN
      else Fin (acos r)
  | _ => NaN
  end.

(** [Math.cos(x)] *)
Definition Math_cos (x : number) : number :=
  match x with
  | Fin r => Fin (cos r)
  | _ => NaN
  end.

(** [x <= y]; false as soon as one side is [NaN]. *)
Definition leb (x y : number) : bool :=
  match x, y with
  | NaN, _ | _, NaN => false
  | Fin a, Fin b => if Rle_dec a b then true else false
  | NegInf, _ => true
  | _, PosInf => true
  | _, _ => false
  end.

(** [x >= y] *)
Definition geb (x y : number) : bool := leb y x.

(** [Math.atan2(y, x)]; a zero is taken as a positive zero. *)
Definition Math_atan2 (y x : number) : number :=
  match y, x with
  | NaN, _ | _, NaN => NaN
  | Fin b, Fin a =>
      if Rlt_dec 0 a then Fin (atan (b / a))
      else if Rlt_dec a 0 then
        if Rlt_dec b 0 then Fin (atan (b / a) - PI)
        else Fin (atan (b / a) + PI)
      else if Rlt_dec 0 b then Fin (PI / 2)
      else if Rlt_dec b 0 then Fin (- (PI / 2))
      else Fin 0
  | Fin _, PosInf => Fin 0
  | Fin b, NegInf => if Rlt_dec b 0 then Fin (- PI) else Fin PI
  | PosInf, Fin _ => Fin (PI / 2)
  | NegInf, Fin _ => Fin (- (PI / 2))
  | PosInf, PosInf => Fin (PI / 4)
  | PosInf, NegInf => Fin (3 * PI / 4)
  | NegInf, PosInf => Fin (- (PI / 4))
  | NegInf, NegInf => Fin (- (3 * PI / 4))
  end.

End JS.

Import JS.

Declare Scope js_scope.
Delimit Scope js_scope with js.
Bind Scope js_scope with number.
Infix "+" := add : js_scope.
Infix "-" := sub : js_scope.
Infix "*" := mul : js_scope.
Infix "/" := div : js_scope.
Infix ">?" := gtb (at level 70, no associativity) : js_scope.
Infix "<?" := ltb (at level 70, no associativity) : js_scope.
Infix "<=?" := leb (at level 70, no associativity) : js_scope.
Infix ">=?" := geb (at level 70, no associativity) : js_scope.

Local Open Scope js_scope.

(** ** three.js: [Vector3] and [MathUtils] *)

Record Vector3 : Type := mkVector3 { vx : number; vy : number; vz : number }.

(** [new Vector3(a, b, c)] with real coordinates. *)
Definition vec (a b c : R) : Vector3 := mkVector3 (Fin a) (Fin b) (Fin c).

(** [this.add(v)] *)
Definition Vector3_add (this v : Vector3) : Vector3 :=
  mkVector3 (vx this + vx v) (vy this + vy v) (vz this + vz v).

(** [new Vector3().subVectors(a, b)] *)
Definition subVectors (a b : Vector3) : Vector3 :=
  mkVector3 (vx a - vx b) (vy a - vy b) (vz a - vz b).

(** [this.lerp(v, alpha)]: each coordinate [c] becomes
    [c + (v.c - c) * alpha]. *)
Definition Vector3_lerp (this v : Vector3) (alpha : number) : Vector3 :=
  mkVector3 (vx this + (vx v - vx this) * alpha)
            (vy this + (vy v - vy this) * alpha)
            (vz this + (vz v - vz this) * alpha).

(** [this.length()] *)
Definition Vector3_length (this : Vector3) : number :=
  Math_sqrt (vx this * vx this + vy this * vy this + vz this * vz this).

(** [a.distanceTo(b)], the length of [a - b]. *)
Definition distanceTo (a b : Vector3) : number :=
  Vector3_length (subVectors a b).

(** [MathUtils.lerp(x, y, t)] *)
Definition lerp (x y t : number) : number := (Fin 1 - t) * x + t * y.

(** A vector all of whose coordinates are finite. *)
Definition finiteVector (v : Vector3) : bool :=
  isFinite (vx v) && isFinite (vy v) && isFinite (vz v).

(** ** The component *)

(** types.ts: [enum AvatarState]. *)
Inductive AvatarState : Type := IDLE | WRITING | THINKING | GRABBING | WALKING.

(** [s === t] on states. *)
Definition state_eqb (s t : AvatarState) : bool :=
  match s, t with
  | IDLE, IDLE | WRITING, WRITING | THINKING, THINKING
  | GRABBING, GRABBING | WALKING, WALKING => true
  | _, _ => false
  end.

(** [interface AvatarProps]; [null] is [None]. *)
Record AvatarProps : Type := mkProps {
  targetPosition : option Vector3;
  state : AvatarState;
  lookAtTarget : option Vector3
}.

(** The values the component keeps across frames: its [useRef] cells, the
    position of the root group ([groupRef.current.position]) and the
    height of the spine group ([spineRef.current.position.y]). *)
Record AnimatorState : Type := mkAnimator {
  currentHandTarget : Vector3;
  headLookAt : Vector3;
  bodyPosition : Vector3;
  bodyTargetX : number;
  groupPosition : Vector3;
  spinePositionY : number
}.

(** The state at mount: the initial values of the refs; a new group sits at
    the origin, and the spine group is given the position [[0, 1.0, 0]]. *)
Definition initialState : AnimatorState :=
  {| currentHandTarget := vec 1 1.5 0;
     headLookAt := vec 0 1.5 5;
     bodyPosition := vec 0 0 0;
     bodyTargetX := Fin 0;
     groupPosition := vec 0 0 0;
     spinePositionY := Fin 1.0 |}.

(** What one frame produces: the next animator state and the rotation set
    on the forearm group ([rightForeArmGroup.current.rotation.x]). *)
Record Frame : Type := mkFrame {
  next : AnimatorState;
  foreArmRotationX : number
}.

Section UseFrame.

Variable props : AvatarProps.

(** [const dt = Math.min(delta, 0.05)] *)
Definition dt (delta : number) : number := Math_min delta (Fin 0.05).

(** *** 1. Locomotion and positioning *)

(** The branch on [targetPosition], [lookAtTarget] and [state] that
    assigns [bodyTargetX.current]; [b] is its value on entry. *)
Definition locomotion (b : number) : number :=
  match targetPosition props with
  | Some t =>
      match state props with
      | WRITING =>
          let idealX := vx t - Fin 0.4 in
          let dist := Math_abs (idealX - b) in
          if dist >? Fin 0.8 then idealX else b
      | GRABBING => vx t - Fin 0.4
      | THINKING => Fin 0
      | _ => b
      end
  | None =>
      match lookAtTarget props with
      | Some l =>
          match state props with
          | IDLE => vx l * Fin 0.3
          | _ => b
          end
      | None => b
      end
  end.

(** [Math.max(-3.2, Math.min(3.2, b))], the clamp to the stage bounds. *)
Definition clampStage (b : number) : number :=
  Math_max (Fin (-3.2)) (Math_min (Fin 3.2) b).

Definition bodyLerpSpeed : number :=
  if state_eqb (state props) WRITING then Fin 4.0 else Fin 2.0.

(** Bobbing and breathing: the height of the spine, from the clock, the
    body position and target of this frame and the height so far. *)
Definition spineY (time delta bodyX bodyTarget y : number) : number :=
  if negb (state_eqb (state props) WRITING) then
    let speed := Math_abs (bodyX - bodyTarget) * Fin 10 in
    let walkBob := Math_sin (time * Fin 12) * Math_min speed (Fin 0.05) in
    Fin 1.0 + Math_sin (time * Fin 1.5) * Fin 0.005 + walkBob
  else lerp y (Fin 1.0) (dt delta * Fin 10).

(** *** 2. Head tracking *)

Definition targetLook : Vector3 :=
  let targetLook :=
    match lookAtTarget props with
    | Some l => l
    | None => vec 0 1.5 10
    end in
  if state_eqb (state props) THINKING then vec 2 4 5 else targetLook.

Definition headLerpSpeed : number :=
  if state_eqb (state props) WRITING then Fin 20 else Fin 5.

(** *** 3. Inverse kinematics of the right arm *)

(** [restPos], from the position of the root group. *)
Definition restPos (group : Vector3) : Vector3 :=
  Vector3_add (vec 0.35 0.9 0.3) group.

(** [activePos], the point the smoothed hand target is moved towards. *)
Definition activePos (group : Vector3) : Vector3 :=
  let activePos :=
    match targetPosition props with
    | Some t => t
    | None => restPos group
    end in
  if state_eqb (state props) THINKING
  then Vector3_add group (vec 0.15 1.6 0.35)
  else activePos.

Definition handLerpSpeed : number :=
  if state_eqb (state props) WRITING then Fin 50
  else if state_eqb (state props) GRABBING then Fin 20
  else Fin 6.

Definition upperArmLen : number := Fin 0.7.
Definition lowerArmLen : number := Fin 0.75.
Definition maxReach : number := upperArmLen + lowerArmLen - Fin 0.01.

(** [cosElbow], from the distance of the hand target to the shoulder. *)
Definition cosElbow (dist : number) : number :=
  (sq upperArmLen + sq lowerArmLen - sq (Math_min dist maxReach))
  / (Fin 2 * upperArmLen * lowerArmLen).

(** The argument given to [Math.acos]. *)
Definition acosArgument (dist : number) : number :=
  Math_max (Fin (-1)) (Math_min (Fin 1) (cosElbow dist)).

Definition elbowAngle (dist : number) : number :=
  Math_acos (acosArgument dist).

(** *** The frame callback

    [time] is the elapsed time of the clock, [delta] the frame time of the
    renderer and [shoulderPos] the world position of the shoulder
    ([spineRef.current.localToWorld]).  The refs of the scene objects are
    taken as mounted. *)
Definition useFrame (time delta : number) (shoulderPos : Vector3)
    (s : AnimatorState) : Frame :=
  (* 1. Locomotion & Positioning *)
  let bodyTargetX' := clampStage (locomotion (bodyTargetX s)) in
  let bodyX :=
    lerp (vx (bodyPosition s)) bodyTargetX' (dt delta * bodyLerpSpeed) in
  let bodyPosition' :=
    mkVector3 bodyX (vy (bodyPosition s)) (vz (bodyPosition s)) in
  let group :=
    mkVector3 bodyX (vy (groupPosition s)) (vz (groupPosition s)) in
  let spineY' := spineY time delta bodyX bodyTargetX' (spinePositionY s) in
  (* 2. Head Tracking *)
  let headLookAt' :=
    Vector3_lerp (headLookAt s) targetLook (dt delta * headLerpSpeed) in
  (* 3. Inverse Kinematics (Right Arm) *)
  let hand :=
    Vector3_lerp (currentHandTarget s) (activePos group)
                 (dt delta * handLerpSpeed) in
  let toTarget := subVectors hand shoulderPos in
  let dist := Vector3_length toTarget in
  {| next := {| currentHandTarget := hand;
                headLookAt := headLookAt';
                bodyPosition := bodyPosition';
                bodyTargetX := bodyTargetX';
                groupPosition := group;
                spinePositionY := spineY' |};
     foreArmRotationX := elbowAngle dist |}.

(** The chalk mesh in the right hand:
    [visible={state === AvatarState.WRITING}]. *)
Definition chalkVisible : bool := state_eqb (state props) WRITING.

End UseFrame.

(** ** Sequences of frames *)

(** The inputs of one frame. *)
Record FrameInput : Type := mkInput {
  inProps : AvatarProps;
  inTime : number;
  inDelta : number;
  inShoulder : Vector3
}.

Definition frame (s : AnimatorState) (i : FrameInput) : AnimatorState :=
  next (useFrame (inProps i) (inTime i) (inDelta i) (inShoulder i) s).

(** The animator state after the frames [l], in order, from [s]. *)
Definition runFrames (s : AnimatorState) (l : list FrameInput)
    : AnimatorState :=
  fold_left frame l s.

(** ** The vocabulary of the statements *)

(** A number that lies on the stage: a real of [-3.2, 3.2]. *)
Definition onStage (x : number) : Prop :=
  exists r : R, x = Fin r /\ (-3.2 <= r <= 3.2)%R.

(** [x <= y] on numbers that are reals. *)
Definition le_number (x y : number) : Prop :=
  exists a b : R, x = Fin a /\ y = Fin b /\ (a <= b)%R.

(** A target that is absent or finite. *)
Definition finiteTarget (o : option Vector3) : bool :=
  match o with
  | Some v => finiteVector v
  | None => true
  end.

(** A target that is present and has a non-finite coordinate. *)
Definition nonFinite (o : option Vector3) : bool :=
  match o with
  | Some v => negb (finiteVector v)
  | None => false
  end.

Definition finiteState (s : AnimatorState) : bool :=
  finiteVector (currentHandTarget s) && finiteVector (headLookAt s)
  && finiteVector (bodyPosition s) && isFinite (bodyTargetX s)
  && finiteVector (groupPosition s) && isFinite (spinePositionY s).

Definition xIsNaN (o : option Vector3) : bool :=
  match o with
  | Some v => isNaN (vx v)
  | None => false
  end.

(** Neither target of the frame has [NaN] as its [x]. *)
Definition directiveXNotNaN (i : FrameInput) : bool :=
  negb (xIsNaN (targetPosition (inProps i)))
  && negb (xIsNaN (lookAtTarget (inProps i))).

(** A frame that feeds a hand target with the given [x] in a state that is
    neither [GRABBING] nor [THINKING]. *)
Definition feedsHandX (x : R) (i : FrameInput) : Prop :=
  (exists t, targetPosition (inProps i) = Some t /\ vx t = Fin x) /\
  state (inProps i) <> GRABBING /\
  state (inProps i) <> THINKING.

(** [cosElbow] on a real distance. *)
Definition RcosElbow (d : R) : R :=
  ((0.7 * 0.7 + 0.75 * 0.75 - Rmin d 1.44 * Rmin d 1.44) / (2 * 0.7 * 0.75))%R.

(** The world position of the shoulder at mount: the offset
    [(0.28, 0.5, 0)] in the spine group, which stands at height 1.0 in the
    root group, itself in the group at [(0, -2, 0)] of App.tsx. *)
Definition shoulderAtMount : Vector3 := vec 0.28 (-0.5) 0.

(** The first frame after mount, writing at the point where the hand
    already is. *)
Definition reachingFrame : Frame :=
  useFrame (mkProps (Some (vec 1 1.5 0)) WRITING None)
           (Fin 0) (Fin 0.016) shoulderAtMount initialState.

(** ** The rig of the right arm

    In the render tree [rightForeArmGroup] is a child of [rightArmGroup],
    whose origin is the shoulder and whose y axis the frame aims at the
    hand target.  The upper arm is a box of length 0.7 along that axis;
    the forearm group sits at its far end, [[0, 0.7, 0]], and carries the
    forearm box and the hand along its own y axis, the hand at
    [[0, 0.78, 0]].  The frame sets the rotation of the forearm group to
    [(elbowAngle, 0, 0)]. *)

(** The rotation of three.js for the Euler angles [(a, 0, 0)], applied to
    [v]. *)
Definition rotateX (a : number) (v : Vector3) : Vector3 :=
  mkVector3 (vx v)
            (Math_cos a * vy v - Math_sin a * vz v)
            (Math_sin a * vy v + Math_cos a * vz v).

(** A point of the forearm group in the coordinates of the arm group, when
    the forearm group has the rotation [(rot, 0, 0)]. *)
Definition foreArmToArm (rot : number) (p : Vector3) : Vector3 :=
  Vector3_add (vec 0 0.7 0) (rotateX rot p).

(** The position of the hand mesh in the forearm group. *)
Definition handInForeArm : Vector3 := vec 0 0.78 0.

(** The far end of the forearm bone of the solver in the forearm group,
    [lowerArmLen] along its y axis. *)
Definition foreArmEnd : Vector3 := vec 0 0.75 0.

(** ** The component, continued: body mechanics

    The fourth part of the frame callback turns the spine towards the point
    of interest and leans it into the action.  [localLook] is that point in
    the coordinates of the root group ([groupRef.current.worldToLocal]) and
    [dist] the distance of the hand target to the shoulder, both taken as
    inputs. *)

(** [bodyRotationY] and [bodyLean]. *)
Record Posture : Type := mkPosture {
  bodyRotationY : number;
  bodyLean : Vector3
}.

Definition initialPosture : Posture :=
  {| bodyRotationY := Fin 0; bodyLean := vec 0 0 0 |}.

Section BodyMechanics.

Variable props : AvatarProps.

(** [targetPosition || lookAtTarget] is not [null]. *)
Definition hasFocus : bool :=
  match targetPosition props, lookAtTarget props with
  | None, None => false
  | _, _ => true
  end.

Definition rotationSpeed : number :=
  if state_eqb (state props) WRITING then Fin 1.0 else Fin 4.0.

(** [state === GRABBING || state === WRITING] *)
Definition reaching : bool :=
  state_eqb (state props) GRABBING || state_eqb (state props) WRITING.

Definition reachExtension (dist : number) : number :=
  Math_min (dist / maxReach) (Fin 1).

Definition targetLeanX (localLook : Vector3) : number :=
  if reaching then (vy localLook - Fin 1.0) * Fin 0.1 else Fin 0.

Definition targetLeanZ (dist : number) (localLook : Vector3) : number :=
  if reaching then
    neg (vx localLook)
    * (if state_eqb (state props) WRITING then Fin 0.05 else Fin 0.2)
    * reachExtension dist
  else Fin 0.

(** 4. Body Mechanics (Leaning) *)
Definition bodyMechanics (delta dist : number) (localLook : Vector3)
    (m : Posture) : Posture :=
  if hasFocus then
    let targetYRot := Math_atan2 (vx localLook) (vz localLook) in
    {| bodyRotationY :=
         lerp (bodyRotationY m) (targetYRot * Fin 0.7)
              (dt delta * rotationSpeed);
       bodyLean :=
         mkVector3
           (lerp (vx (bodyLean m)) (targetLeanX localLook) (dt delta * Fin 5))
           (vy (bodyLean m))
           (lerp (vz (bodyLean m)) (targetLeanZ dist localLook)
                 (dt delta * Fin 5)) |}
  else
    {| bodyRotationY := lerp (bodyRotationY m) (Fin 0) (dt delta * Fin 3);
       bodyLean := vec 0 0 0 |}.

End BodyMechanics.

(** The inputs of the body mechanics of one frame. *)
Record PostureInput : Type := mkPostureInput {
  poProps : AvatarProps;
  poDelta : number;
  poDist : number;
  poLocalLook : Vector3
}.

Definition postureFrame (m : Posture) (i : PostureInput) : Posture :=
  bodyMechanics (poProps i) (poDelta i) (poDist i) (poLocalLook i) m.

Definition runPosture (m : Posture) (l : list PostureInput) : Posture :=
  fold_left postureFrame l m.

(** A frame with a real frame time that is not negative. *)
Definition steadyTime (delta : number) : Prop :=
  exists d : R, delta = Fin d /\ (0 <= d)%R.

(** A frame whose targets have no [NaN] as their [x] and whose frame time
    is a real that is not negative. *)
Definition plainFrame (i : FrameInput) : Prop :=
  directiveXNotNaN i = true /\ steadyTime (inDelta i).

(** A frame without a directive for the body: no hand target, and a gaze
    target only outside [IDLE]. *)
Definition noBodyDirective (i : FrameInput) : Prop :=
  targetPosition (inProps i) = None /\
  (lookAtTarget (inProps i) = None \/ state (inProps i) <> IDLE).

(** A frame that smooths the hand towards [t] in the state [st] with the
    frame time [d]. *)
Definition tracksHand (t : Vector3) (st : AvatarState) (d : R)
    (i : FrameInput) : Prop :=
  targetPosition (inProps i) = Some t /\
  state (inProps i) = st /\
  inDelta i = Fin d.

(** A vector whose coordinates are reals of absolute value at most [m]. *)
Definition boundedVector (m : R) (v : Vector3) : Prop :=
  exists a b c : R,
    v = vec a b c /\ (Rabs a <= m)%R /\ (Rabs b <= m)%R /\ (Rabs c <= m)%R.

(** A vector with a [NaN] coordinate. *)
Definition hasNaN (v : Vector3) : bool :=
  isNaN (vx v) || isNaN (vy v) || isNaN (vz v).

(** A posture frame with a finite point of interest and a real frame time
    that is not negative. *)
Definition plainPosture (i : PostureInput) : Prop :=
  finiteVector (poLocalLook i) = true /\ steadyTime (poDelta i).

(** How much of the sideways offset of the point of interest the lean
    takes, by state. *)
Definition sideLeanFactor (st : AvatarState) : R :=
  match st with
  | WRITING => 0.05
  | GRABBING => 0.2
  | _ => 0
  end.

(** A posture frame at rest: neither target is present. *)
Definition atRest (d : R) (i : PostureInput) : Prop :=
  targetPosition (poProps i) = None /\
  lookAtTarget (poProps i) = None /\
  poDelta i = Fin d.

(** The body target and the body position are on
    the stage, and the root group stands where the body is. *)
Definition bodyOnStage (s : AnimatorState) : Prop :=
  onStage (bodyTargetX s) /\
  exists p : R,
    vx (bodyPosition s) = Fin p /\ (-3.2 <= p <= 3.2)%R /\
    vx (groupPosition s) = Fin p.

(** ** JavaScript strings

    A string is the sequence of its UTF-16 code units: [length] counts
    them and [substring] cuts between them, so that a character outside
    the basic plane counts for two. *)

Definition codeUnit : Type := N.

Definition jsString : Type := list codeUnit.

(** [s.length] *)
Definition String_length (s : jsString) : nat := List.length s.

(** [s.substring(a, b)] for indices that are natural numbers: the code
    units from the smaller index up to the greater, both cut at the
    length. *)
Definition String_substring (a b : nat) (s : jsString) : jsString :=
  firstn (Nat.max a b - Nat.min a b) (skipn (Nat.min a b) s).

(** ** The application (App.tsx)

    The state of [App] that its handlers read and set, each handler as a
    function on it.  A handler sees the state of the render it belongs to:
    one event is handled per render.  The list of shapes is left out. *)

(** types.ts: [DrawingPoint] (its [x], [y], [z]) and [Stroke]. *)
Record DrawingPoint : Type := mkPoint { px : number; py : number; pz : number }.

Record Stroke : Type := mkStroke {
  points : list DrawingPoint;
  color : string
}.

(** [point.clone()] with its [z] assigned. *)
Definition withZ (v : Vector3) (z : number) : Vector3 :=
  mkVector3 (vx v) (vy v) z.

Module App.

Record State : Type := mkState {
  avatarState : AvatarState;
  ikTarget : option Vector3;
  lookAtTarget : option Vector3;
  strokes : list Stroke;
  currentStroke : option Stroke;
  aiThinking : bool;
  aiText : jsString;
  orbitEnabled : bool
}.

(** The initial values of the [useState] cells. *)
Definition initial : State :=
  {| avatarState := IDLE; ikTarget := None; lookAtTarget := None;
     strokes := []; currentStroke := None; aiThinking := false;
     aiText := []; orbitEnabled := true |}.

Definition setAvatarState (v : AvatarState) (s : State) : State :=
  mkState v (ikTarget s) (lookAtTarget s) (strokes s) (currentStroke s)
          (aiThinking s) (aiText s) (orbitEnabled s).

Definition setIkTarget (v : option Vector3) (s : State) : State :=
  mkState (avatarState s) v (lookAtTarget s) (strokes s) (currentStroke s)
          (aiThinking s) (aiText s) (orbitEnabled s).

Definition setLookAtTarget (v : option Vector3) (s : State) : State :=
  mkState (avatarState s) (ikTarget s) v (strokes s) (currentStroke s)
          (aiThinking s) (aiText s) (orbitEnabled s).

Definition setStrokes (v : list Stroke) (s : State) : State :=
  mkState (avatarState s) (ikTarget s) (lookAtTarget s) v (currentStroke s)
          (aiThinking s) (aiText s) (orbitEnabled s).

Definition setCurrentStroke (v : option Stroke) (s : State) : State :=
  mkState (avatarState s) (ikTarget s) (lookAtTarget s) (strokes s) v
          (aiThinking s) (aiText s) (orbitEnabled s).

Definition setAiThinking (v : bool) (s : State) : State :=
  mkState (avatarState s) (ikTarget s) (lookAtTarget s) (strokes s)
          (currentStroke s) v (aiText s) (orbitEnabled s).

Definition setAiText (v : jsString) (s : State) : State :=
  mkState (avatarState s) (ikTarget s) (lookAtTarget s) (strokes s)
          (currentStroke s) (aiThinking s) v (orbitEnabled s).

Definition setOrbitEnabled (v : bool) (s : State) : State :=
  mkState (avatarState s) (ikTarget s) (lookAtTarget s) (strokes s)
          (currentStroke s) (aiThinking s) (aiText s) v.

(** [!aiText] *)
Definition noText (t : jsString) : bool :=
  match t with [] => true | _ => false end.

Definition mapWorldToUV (point : Vector3) : number * number :=
  ((vx point + Fin 4) / Fin 8, (vy point + Fin 2) / Fin 4).

Definition onBoardPointerDown (point : Vector3) (s : State) : State :=
  let s1 := setOrbitEnabled false s in
  let '(u, v) := mapWorldToUV point in
  if (u >=? Fin 0) && (u <=? Fin 1) && (v >=? Fin 0) && (v <=? Fin 1) then
    let writeTarget := withZ point (Fin (-1.8)) in
    let newStroke := mkStroke [mkPoint u v (Fin 0)] "white" in
    setCurrentStroke (Some newStroke)
      (setLookAtTarget (Some point)
         (setIkTarget (Some writeTarget) (setAvatarState WRITING s1)))
  else s1.

Definition onBoardPointerMove (point : Vector3) (s : State) : State :=
  let s1 := if vz point <? Fin 2 then setLookAtTarget (Some point) s else s in
  match avatarState s, currentStroke s with
  | WRITING, Some prev =>
      let writeTarget := withZ point (Fin (-1.8)) in
      let s2 := setIkTarget (Some writeTarget) s1 in
      let '(u, v) := mapWorldToUV point in
      if (u >=? Fin (-0.1)) && (u <=? Fin 1.1)
         && (v >=? Fin (-0.1)) && (v <=? Fin 1.1)
      then
        setCurrentStroke
          (Some (mkStroke (points prev ++ [mkPoint u v (Fin 0)]) (color prev)))
          s2
      else s2
  | _, _ => s1
  end.

Definition onBoardPointerUp (s : State) : State :=
  let s1 := setOrbitEnabled true s in
  let s2 :=
    match avatarState s, currentStroke s with
    | WRITING, Some c =>
        setCurrentStroke None (setStrokes (strokes s ++ [c]) s1)
    | _, _ => s1
    end in
  if noText (aiText s) then setIkTarget None (setAvatarState IDLE s2)
  else s2.

Definition handleAIWritePos (pos : Vector3) (s : State) : State :=
  let s1 :=
    if negb (state_eqb (avatarState s) WRITING)
    then setAvatarState WRITING s else s in
  let aiTarget := withZ pos (Fin (-1.8)) in
  setLookAtTarget (Some pos) (setIkTarget (Some aiTarget) s1).

Definition onShapeDragStart (pos : Vector3) (s : State) : State :=
  setLookAtTarget (Some pos)
    (setIkTarget (Some pos)
       (setAvatarState GRABBING (setOrbitEnabled false s))).

Definition onShapeDragMove (pos : Vector3) (s : State) : State :=
  setLookAtTarget (Some pos) (setIkTarget (Some pos) s).

Definition onShapeDragEnd (s : State) : State :=
  setIkTarget None (setAvatarState IDLE (setOrbitEnabled true s)).

Definition clearBoard (s : State) : State :=
  setIkTarget None (setAvatarState IDLE (setAiText [] (setStrokes [] s))).

(** [handleAskAI] up to its [await], with the canvas mounted. *)
Definition handleAskAI (s : State) : State :=
  setIkTarget (Some (vec 0.5 1.8 0.2))
    (setAiText [] (setAiThinking true (setAvatarState THINKING s))).

(** [handleAskAI] after its [await]; [displayText] is the response with
    its tags taken out. *)
Definition handleAskAIResponse (displayText : jsString) (s : State) : State :=
  setAiText displayText (setAvatarState WRITING (setAiThinking false s)).

(** [addGraphShape], without the list of shapes. *)
Definition addGraphShape (s : State) : State :=
  setAvatarState GRABBING
    (setIkTarget (Some (vec 0 1 1.5)) (setLookAtTarget (Some (vec 0 1 1.5)) s)).

(** The timer of [addGraphShape]. *)
Definition graphTimeout (s : State) : State :=
  setIkTarget None (setAvatarState IDLE s).

(** What can happen to the application. *)
Inductive Event : Type :=
| BoardPointerDown (point : Vector3)
| BoardPointerMove (point : Vector3)
| BoardPointerUp
| AIWritePos (pos : Vector3)
| ShapeDragStart (pos : Vector3)
| ShapeDragMove (pos : Vector3)
| ShapeDragEnd
| ClearBoard
| AskAI
| AskAIResponse (displayText : jsString)
| AddGraphShape
| GraphTimeout.

Definition handle (s : State) (e : Event) : State :=
  match e with
  | BoardPointerDown point => onBoardPointerDown point s
  | BoardPointerMove point => onBoardPointerMove point s
  | BoardPointerUp => onBoardPointerUp s
  | AIWritePos pos => handleAIWritePos pos s
  | ShapeDragStart pos => onShapeDragStart pos s
  | ShapeDragMove pos => onShapeDragMove pos s
  | ShapeDragEnd => onShapeDragEnd s
  | ClearBoard => clearBoard s
  | AskAI => handleAskAI s
  | AskAIResponse displayText => handleAskAIResponse displayText s
  | AddGraphShape => addGraphShape s
  | GraphTimeout => graphTimeout s
  end.

Definition run (s : State) (l : list Event) : State := fold_left handle l s.

(** The props [App] gives to [Avatar]. *)
Definition avatarProps (s : State) : AvatarProps :=
  mkProps (ikTarget s) (avatarState s) (lookAtTarget s).

(** The strokes [App] gives to [Blackboard]. *)
Definition boardStrokes (s : State) : list Stroke :=
  match currentStroke s with
  | Some c => strokes s ++ [c]
  | None => strokes s
  end.

End App.

(** ** The blackboard (components/Blackboard.tsx) *)

Module Blackboard.

(** The size of the canvas of the texture. *)
Definition canvasWidth : number := Fin 1024.
Definition canvasHeight : number := Fin 512.

(** *** The typing effect

    [charIndex] and [displayedText]; one step is one run of the effect on
    [aiText] and [charIndex], its timer included. *)
Record Typing : Type := mkTyping {
  charIndex : nat;
  displayedText : jsString
}.

Definition typingStep (aiText : jsString) (t : Typing) : Typing :=
  if negb (App.noText aiText) && (charIndex t <? String_length aiText)%nat
  then mkTyping (charIndex t + 1)
                (String_substring 0 (charIndex t + 1) aiText)
  else if App.noText aiText then mkTyping 0 []
  else t.

(** [n] steps of the effect. *)
Definition typing (aiText : jsString) (n : nat) (t : Typing) : Typing :=
  Nat.iter n (typingStep aiText) t.

(** *** Drawing the strokes *)

(** The calls on the 2D context that trace a path. *)
Inductive PathCommand : Type :=
| MoveTo (x y : number)
| QuadraticCurveTo (cpx cpy x y : number)
| LineTo (x y : number).

(** [p.x * canvas.width] and [(1 - p.y) * canvas.height] *)
Definition pixelX (p : DrawingPoint) : number := px p * canvasWidth.
Definition pixelY (p : DrawingPoint) : number :=
  (Fin 1 - py p) * canvasHeight.

(** The loop over [points[1] .. points[length - 2]]; [ps] is the list of
    the points from [points[1]] on. *)
Fixpoint curves (ps : list DrawingPoint) : list PathCommand :=
  match ps with
  | p1 :: ((p2 :: _) as rest) =>
      let cpX := (pixelX p1 + pixelX p2) / Fin 2 in
      let cpY := (pixelY p1 + pixelY p2) / Fin 2 in
      QuadraticCurveTo (pixelX p1) (pixelY p1) cpX cpY :: curves rest
  | _ => []
  end.

(** The path traced for one stroke, from [beginPath] to [stroke]. *)
Definition strokePath (stroke : Stroke) : list PathCommand :=
  match points stroke with
  | [] => []
  | p0 :: rest =>
      MoveTo (pixelX p0) (pixelY p0)
      :: curves rest
      ++ match rest with
         | [] => []
         | _ :: _ =>
             let last := List.last rest p0 in
             [LineTo (pixelX last) (pixelY last)]
         end
  end.

(** *** The hand of the avatar at the end of the text

    The world position given to [onAIWritePos], from the pen position
    [(drawX, drawY)] on the canvas. *)
Definition aiWritePos (drawX drawY : number) : Vector3 :=
  let u := (drawX + Fin 20) / canvasWidth in
  let v := Fin 1 - (drawY + Fin 40) / canvasHeight in
  let worldX := (u * Fin 8) - Fin 4 in
  let worldY := (v * Fin 4) - Fin 2 in
  mkVector3 worldX worldY (Fin (-1.8)).

End Blackboard.

(** ** The shapes (components/InteractiveShapes.tsx) *)

Module Shapes.

(** What [DraggableMesh] keeps: [dragging] and the position of its mesh. *)
Record Mesh : Type := mkMesh {
  dragging : bool;
  position : Vector3
}.

(** [onPointerMove]: the mesh after the event and the position given to
    [onDragMove], if it is called. *)
Definition onPointerMove (point : Vector3) (m : Mesh)
    : Mesh * option Vector3 :=
  if dragging m then
    let newPos := withZ point (Math_max (Fin 0.5) (vz point)) in
    (mkMesh (dragging m) newPos, Some newPos)
  else (m, None).

(** [label.includes(sub)] *)
Fixpoint includes (sub label : string) : bool :=
  prefix sub label
  || match label with
     | EmptyString => false
     | String _ rest => includes sub rest
     end.

(** [useGraphTexture]: the row of the curve in the column [x] of the
    texture; [label] is [shape.label], [None] when it is undefined. *)
Definition curvePixelY (label : option string) (x : nat) : number :=
  let domainX := (Fin (INR x) - Fin 256) / Fin 40 in
  let has sub := match label with
                 | Some l => includes sub l
                 | None => false
                 end in
  let domainY :=
    if has "sin"%string then Math_sin domainX * Fin 2
    else if has "cos"%string then Math_cos domainX * Fin 2
    else (domainX * domainX) * Fin 0.2 in
  Fin 256 - (domainY * Fin 40).

End Shapes.



(** The point of the board's texture under a world point. *)
Definition uvPoint (point : Vector3) : DrawingPoint :=
  let '(u, v) := App.mapWorldToUV point in mkPoint u v (Fin 0).

(** The test of [onBoardPointerDown]: the point is on the board. *)
Definition onBoard (point : Vector3) : bool :=
  let '(u, v) := App.mapWorldToUV point in
  (u >=? Fin 0) && (u <=? Fin 1) && (v >=? Fin 0) && (v <=? Fin 1).

(** The test of [onBoardPointerMove]: the point is on the board or within a
    tenth of its size around it. *)
Definition nearBoard (point : Vector3) : bool :=
  let '(u, v) := App.mapWorldToUV point in
  (u >=? Fin (-0.1)) && (u <=? Fin 1.1)
  && (v >=? Fin (-0.1)) && (v <=? Fin 1.1).

(** A point of a stroke with real coordinates in the given band around the
    unit square, and [z = 0]. *)
Definition pointWithin (margin : R) (p : DrawingPoint) : Prop :=
  exists u v : R,
    p = mkPoint (Fin u) (Fin v) (Fin 0) /\
    (- margin <= u <= 1 + margin)%R /\ (- margin <= v <= 1 + margin)%R.

(** A stroke as the handlers make them: a first point on the board, the
    others within a tenth around it. *)
Definition wellFormedStroke (c : Stroke) : Prop :=
  exists p ps,
    points c = p :: ps /\ pointWithin 0 p /\ Forall (pointWithin 0.1) ps.

Definition strokesWellFormed (s : App.State) : Prop :=
  Forall wellFormedStroke (App.boardStrokes s).

(** The avatar is never walking, and it thinks or grabs only with a hand
    target. *)
Definition avatarDirected (s : App.State) : Prop :=
  App.avatarState s <> WALKING /\
  (App.avatarState s = THINKING \/ App.avatarState s = GRABBING ->
   App.ikTarget s <> None).

Definition notClearBoard (e : App.Event) : bool :=
  match e with App.ClearBoard => false | _ => true end.

(** ** Binary64: the arithmetic of the thresholds

    The reals above leave out rounding.  That is harmless where a value is
    only carried along, and it is not where a branch turns on a comparison
    at its threshold: the dead zone of the locomotion compares a rounded
    difference with the rounded literal 0.8.  For those places the same
    expressions are given here on the binary64 numbers the engine computes
    with: [spec_float] of the Standard Library at precision 53, whose
    operations round to nearest, ties to even.  Everything in this module
    is computable. *)

Module Binary64.

Definition float64 : Type := spec_float.
Definition prec : Z := 53%Z.
Definition emax : Z := 1024%Z.

(** An integer literal. *)
Definition ofZ (n : Z) : float64 := binary_normalize prec emax n 0 false.

(** The decimal literal whose value is [n / d], for integers below [2^53]:
    the number nearest to the quotient, as the division of two integers
    that are represented exactly is rounded once.  [literal 8 10] is the
    number the source writes [0.8]. *)
Definition literal (n d : Z) : float64 := SFdiv prec emax (ofZ n) (ofZ d).

Definition neg (x : float64) : float64 := SFopp x.
Definition add (x y : float64) : float64 := SFadd prec emax x y.
Definition sub (x y : float64) : float64 := SFsub prec emax x y.
Definition mul (x y : float64) : float64 := SFmul prec emax x y.
Definition div (x y : float64) : float64 := SFdiv prec emax x y.

(** [x < y], [x > y], [x <= y] and [x >= y]; false as soon as one side is
    [NaN]. *)
Definition ltb (x y : float64) : bool := SFltb x y.
Definition gtb (x y : float64) : bool := SFltb y x.
Definition leb (x y : float64) : bool := SFleb x y.
Definition geb (x y : float64) : bool := SFleb y x.

Definition Math_abs (x : float64) : float64 := SFabs x.

(** [Math.min(x, y)]: [NaN] if one of them is, [-0] before [+0], and
    otherwise [y] if it is less than [x]. *)
Definition Math_min (x y : float64) : float64 :=
  match x, y with
  | S754_nan, _ | _, S754_nan => S754_nan
  | S754_zero true, S754_zero _ | S754_zero _, S754_zero true =>
      S754_zero true
  | _, _ => if ltb y x then y else x
  end.

(** [Math.max(x, y)] *)
Definition Math_max (x y : float64) : float64 :=
  match x, y with
  | S754_nan, _ | _, S754_nan => S754_nan
  | S754_zero false, S754_zero _ | S754_zero _, S754_zero false =>
      S754_zero false
  | _, _ => if gtb y x then y else x
  end.

(** [MathUtils.lerp(x, y, t)] *)
Definition lerp (x y t : float64) : float64 :=
  add (mul (sub (ofZ 1) t) x) (mul t y).

Record Vector3 : Type := mkVector3 { x : float64; y : float64; z : float64 }.

Record AvatarProps : Type := mkProps {
  targetPosition : option Vector3;
  state : AvatarState;
  lookAtTarget : option Vector3
}.

(** *** Locomotion (Avatar.tsx) *)

(** [idealX] and [dist] of the dead zone, for the hand target [t] and the
    body target [b]. *)
Definition idealX (t : Vector3) : float64 := sub (x t) (literal 4 10).

Definition dist (t : Vector3) (b : float64) : float64 :=
  Math_abs (sub (idealX t) b).

(** The branch that assigns [bodyTargetX.current]; [b] is its value on
    entry. *)
Definition locomotion (props : AvatarProps) (b : float64) : float64 :=
  match targetPosition props with
  | Some t =>
      match state props with
      | WRITING => if gtb (dist t b) (literal 8 10) then idealX t else b
      | GRABBING => sub (x t) (literal 4 10)
      | THINKING => ofZ 0
      | _ => b
      end
  | None =>
      match lookAtTarget props with
      | Some l =>
          match state props with
          | IDLE => mul (x l) (literal 3 10)
          | _ => b
          end
      | None => b
      end
  end.

(** [Math.max(-3.2, Math.min(3.2, b))] *)
Definition clampStage (b : float64) : float64 :=
  Math_max (neg (literal 32 10)) (Math_min (literal 32 10) b).

(** [bodyTargetX.current] after the locomotion part of one frame. *)
Definition bodyTarget (props : AvatarProps) (b : float64) : float64 :=
  clampStage (locomotion props b).

(** [useRef(0)]: the body target at mount. *)
Definition mount : float64 := ofZ 0.

(** The body target after the frames with the props [l], in order, from
    [b]. *)
Definition run (b : float64) (l : list AvatarProps) : float64 :=
  fold_left (fun b props => bodyTarget props b) l b.

(** *** The elbow (Avatar.tsx) *)

Definition upperArmLen : float64 := literal 7 10.
Definition lowerArmLen : float64 := literal 75 100.
Definition maxReach : float64 :=
  sub (add upperArmLen lowerArmLen) (literal 1 100).

(** [x ** 2] *)
Definition sq (x : float64) : float64 := mul x x.

Definition cosElbow (dist : float64) : float64 :=
  div (sub (add (sq upperArmLen) (sq lowerArmLen))
           (sq (Math_min dist maxReach)))
      (mul (mul (ofZ 2) upperArmLen) lowerArmLen).

(** The argument given to [Math.acos]. *)
Definition acosArgument (dist : float64) : float64 :=
  Math_max (neg (ofZ 1)) (Math_min (ofZ 1) (cosElbow dist)).

(** *** The board (App.tsx) *)

Definition mapWorldToUV (point : Vector3) : float64 * float64 :=
  (div (add (x point) (ofZ 4)) (ofZ 8), div (add (y point) (ofZ 2)) (ofZ 4)).

(** The test of [onBoardPointerDown]. *)
Definition onBoard (point : Vector3) : bool :=
  let '(u, v) := mapWorldToUV point in
  geb u (ofZ 0) && leb u (ofZ 1) && geb v (ofZ 0) && leb v (ofZ 1).

(** *** The vocabulary of the statements *)

(** A number of the stage: [-3.2 <= b <= 3.2]. *)
Definition onStage (b : float64) : bool :=
  leb (neg (literal 32 10)) b && leb b (literal 32 10).

(** Props that feed a hand target with the [x] of [t] in a state that is
    neither [GRABBING] nor [THINKING]. *)
Definition feedsHand (t : Vector3) (props : AvatarProps) : Prop :=
  (exists t', targetPosition props = Some t' /\ x t' = x t) /\
  state props <> GRABBING /\
  state props <> THINKING.

End Binary64.

(** ** JavaScript numbers on the reals *)

(** Decide every comparison of reals in sight, closing the branches that
    contradict the arithmetic facts at hand. *)
Ltac js_cases :=
  repeat match goal with
  | |- context [Rlt_dec ?a ?b] => destruct (Rlt_dec a b); try lra
  | |- context [Req_dec_T ?a ?b] => destruct (Req_dec_T a b); try lra
  end.

Section FiniteNumbers.

Variables a b : R.

Lemma add_Fin : Fin a + Fin b = Fin (a + b).
Proof. reflexivity. Qed.

Lemma sub_Fin : Fin a - Fin b = Fin (a - b).
Proof. reflexivity. Qed.

Lemma mul_Fin : Fin a * Fin b = Fin (a * b).
Proof. reflexivity. Qed.

Lemma div_Fin : b <> 0%R -> Fin a / Fin b = Fin (a / b).
Proof.
  intros Hb. unfold div.
  destruct (Req_dec_T b 0); [contradiction | reflexivity].
Qed.

Lemma sq_Fin : sq (Fin a) = Fin (a * a).
Proof. reflexivity. Qed.

Lemma Math_abs_Fin : Math_abs (Fin a) = Fin (Rabs a).
Proof. reflexivity. Qed.

Lemma Math_min_Fin : Math_min (Fin a) (Fin b) = Fin (Rmin a b).
Proof.
  unfold Math_min, ltb, Rmin.
  destruct (Rlt_dec a b), (Rle_dec a b); f_equal; lra.
Qed.

Lemma Math_max_Fin : Math_max (Fin a) (Fin b) = Fin (Rmax a b).
Proof.
  unfold Math_max, ltb, Rmax.
  destruct (Rlt_dec a b), (Rle_dec a b); f_equal; lra.
Qed.

Lemma gtb_Fin_true : (b < a)%R -> (Fin a >? Fin b) = true.
Proof. intros H. unfold gtb, ltb. js_cases; reflexivity. Qed.

Lemma gtb_Fin_false : (a <= b)%R -> (Fin a >? Fin b) = false.
Proof. intros H. unfold gtb, ltb. js_cases; reflexivity. Qed.

Lemma Math_sqrt_Fin : (0 <= a)%R -> Math_sqrt (Fin a) = Fin (sqrt a).
Proof. intros H. unfold Math_sqrt. js_cases; reflexivity. Qed.

Lemma Math_acos_Fin :
  (-1 <= a <= 1)%R -> Math_acos (Fin a) = Fin (acos a).
Proof. intros H. unfold Math_acos. js_cases; reflexivity. Qed.

End FiniteNumbers.

Create Rewrite HintDb js_fin.
#[export] Hint Rewrite add_Fin sub_Fin mul_Fin sq_Fin Math_abs_Fin
  Math_min_Fin Math_max_Fin : js_fin.

Lemma isFinite_Fin (x : number) :
  isFinite x = true -> exists r : R, x = Fin r.
Proof. destruct x as [r | | |]; try discriminate. now exists r. Qed.

Lemma finiteVector_vec (v : Vector3) :
  finiteVector v = true -> exists a b c : R, v = vec a b c.
Proof.
  destruct v as [x y z]. unfold finiteVector. cbn [vx vy vz]. intros H.
  apply andb_prop in H as [H Hz]. apply andb_prop in H as [Hx Hy].
  destruct (isFinite_Fin x Hx) as [a ->].
  destruct (isFinite_Fin y Hy) as [b ->].
  destruct (isFinite_Fin z Hz) as [c ->].
  now exists a, b, c.
Qed.

Lemma sum_of_squares_nonneg (a b c : R) : (0 <= a * a + b * b + c * c)%R.
Proof.
  pose proof (Rle_0_sqr a). pose proof (Rle_0_sqr b).
  pose proof (Rle_0_sqr c). unfold Rsqr in *. lra.
Qed.

Lemma distanceTo_vec (a b c a' b' c' : R) :
  distanceTo (vec a b c) (vec a' b' c')
  = Fin (sqrt ((a - a') * (a - a') + (b - b') * (b - b')
               + (c - c') * (c - c'))).
Proof.
  unfold distanceTo, Vector3_length, subVectors, vec. cbn [vx vy vz].
  autorewrite with js_fin. apply Math_sqrt_Fin, sum_of_squares_nonneg.
Qed.

(** The distance between two finite points is a real. *)
Lemma distanceTo_finite (a b : Vector3) :
  finiteVector a = true ->
  finiteVector b = true ->
  exists d : R, distanceTo a b = Fin d /\ (0 <= d)%R.
Proof.
  intros Ha Hb.
  destruct (finiteVector_vec a Ha) as [a1 [a2 [a3 ->]]].
  destruct (finiteVector_vec b Hb) as [b1 [b2 [b3 ->]]].
  rewrite distanceTo_vec. eexists. split; [reflexivity | apply sqrt_pos].
Qed.

Lemma Vector3_lerp_vec (a b c a' b' c' alpha : R) :
  Vector3_lerp (vec a b c) (vec a' b' c') (Fin alpha)
  = vec (a + (a' - a) * alpha) (b + (b' - b) * alpha) (c + (c' - c) * alpha).
Proof. reflexivity. Qed.

(** ** Elapsed time *)


Lemma Rmin_dt_bounds (d : R) :
  (0 <= d)%R -> (0 <= Rmin d 0.05 <= 0.05)%R /\ (Rmin d 0.05 <= d)%R.
Proof.
  intros Hd. unfold Rmin. destruct (Rle_dec d 0.05); lra.
Qed.


(** ** Locomotion: the body target *)

Lemma bodyTargetX_next props time delta shoulderPos s :
  bodyTargetX (next (useFrame props time delta shoulderPos s))
  = clampStage (locomotion props (bodyTargetX s)).
Proof. reflexivity. Qed.

(** The stage clamp on a real is the clamp of the reals. *)
Lemma clampStage_Fin (r : R) :
  clampStage (Fin r) = Fin (Rmax (-3.2) (Rmin 3.2 r)).
Proof. unfold clampStage. now rewrite Math_min_Fin, Math_max_Fin. Qed.

Lemma clampStage_inside (r : R) :
  (-3.2 <= r <= 3.2)%R -> clampStage (Fin r) = Fin r.
Proof.
  intros H. rewrite clampStage_Fin. f_equal.
  unfold Rmax, Rmin.
  destruct (Rle_dec 3.2 r), (Rle_dec (-3.2) r), (Rle_dec (-3.2) 3.2); lra.
Qed.

Lemma Rclamp_bounds (r : R) :
  (-3.2 <= Rmax (-3.2) (Rmin 3.2 r) <= 3.2)%R.
Proof.
  unfold Rmax, Rmin.
  destruct (Rle_dec 3.2 r); destruct (Rle_dec (-3.2) _); lra.
Qed.

(** The clamp puts every number but [NaN] on the stage. *)
Lemma clampStage_onStage (x : number) :
  isNaN x = false -> onStage (clampStage x).
Proof.
  destruct x as [r | | |]; intros H; try discriminate.
  - exists (Rmax (-3.2) (Rmin 3.2 r)). split.
    + apply clampStage_Fin.
    + apply Rclamp_bounds.
  - exists 3.2%R. split; [| lra].
    unfold clampStage. cbn. js_cases; reflexivity.
  - exists (-3.2)%R. split; [| lra].
    unfold clampStage. cbn. js_cases; reflexivity.
Qed.

Lemma clampStage_NaN_or_onStage (x : number) :
  clampStage x = NaN \/ onStage (clampStage x).
Proof.
  destruct (isNaN x) eqn:Hx.
  - left. destruct x; try discriminate. reflexivity.
  - right. now apply clampStage_onStage.
Qed.

Lemma runFrames_app s l1 l2 :
  runFrames s (l1 ++ l2) = runFrames (runFrames s l1) l2.
Proof. apply fold_left_app. Qed.

Lemma runFrames_snoc s l i :
  runFrames s (l ++ [i]) = frame (runFrames s l) i.
Proof. now rewrite runFrames_app. Qed.

(** After any frames from mount the body target is [NaN] or on the stage. *)
Lemma reachable_bodyTargetX (l : list FrameInput) :
  bodyTargetX (runFrames initialState l) = NaN \/
  onStage (bodyTargetX (runFrames initialState l)).
Proof.
  destruct l as [| i l _] using rev_ind.
  - right. exists 0%R. split; [reflexivity | lra].
  - rewrite runFrames_snoc. unfold frame. rewrite bodyTargetX_next.
    apply clampStage_NaN_or_onStage.
Qed.

(** ** The dead zone, in binary64

    The dead zone turns on the comparison [dist > 0.8], and the body target
    of a frame depends on nothing but the props and the body target before
    it: the statements about it are made on [Binary64.bodyTarget]. *)

Lemma literal_3_2 :
  Binary64.literal 32 10 = S754_finite false 7205759403792794 (-51).
Proof. vm_compute. reflexivity. Qed.

(** A number that compares equal to a number other than zero is that
    number. *)
Lemma SFcompare_Eq_finite_r (f : spec_float) s m e :
  SFcompare f (S754_finite s m e) = Some Eq -> f = S754_finite s m e.
Proof.
  destruct f as [s' | s' | | s' m' e']; cbn.
  - destruct s; discriminate.
  - destruct s'; discriminate.
  - discriminate.
  - destruct s', s; try discriminate.
    + destruct (Z.compare_spec e' e) as [-> | |]; try discriminate.
      intros H. injection H as H. f_equal.
      apply Pos.compare_eq. unfold Pos.compare.
      destruct (Pos.compare_cont Eq m' m); try discriminate; reflexivity.
    + destruct (Z.compare_spec e' e) as [-> | |]; try discriminate.
      intros H. injection H as H. f_equal.
      now apply Pos.compare_eq.
Qed.

Lemma SFcompare_Eq_finite_l (f : spec_float) s m e :
  SFcompare (S754_finite s m e) f = Some Eq -> f = S754_finite s m e.
Proof.
  destruct f as [s' | s' | | s' m' e']; cbn.
  - destruct s; discriminate.
  - destruct s'; discriminate.
  - discriminate.
  - destruct s', s; try discriminate.
    + destruct (Z.compare_spec e e') as [-> | |]; try discriminate.
      intros H. injection H as H. f_equal. symmetry.
      apply Pos.compare_eq. unfold Pos.compare.
      destruct (Pos.compare_cont Eq m m'); try discriminate; reflexivity.
    + destruct (Z.compare_spec e e') as [-> | |]; try discriminate.
      intros H. injection H as H. f_equal. symmetry.
      now apply Pos.compare_eq.
Qed.

(** The clamp gives back what it is given again: its result is one of the
    two bounds, [NaN], or its argument when that passed both tests. *)
Lemma clampStage64_idempotent (b : Binary64.float64) :
  Binary64.clampStage (Binary64.clampStage b) = Binary64.clampStage b.
Proof.
  unfold Binary64.clampStage. rewrite literal_3_2.
  destruct b as [s | s | | s m e].
  - destruct s; vm_compute; reflexivity.
  - destruct s; vm_compute; reflexivity.
  - reflexivity.
  - cbn [Binary64.Math_min Binary64.neg SFopp negb].
    destruct (Binary64.ltb (S754_finite s m e) _) eqn:E1.
    + cbn [Binary64.Math_max].
      destruct (Binary64.gtb (S754_finite s m e) _) eqn:E2.
      * cbn [Binary64.Math_min]. rewrite E1. cbn [Binary64.Math_max].
        rewrite E2. reflexivity.
      * vm_compute. reflexivity.
    + vm_compute. reflexivity.
Qed.

(** The clamp leaves the numbers of the stage as they are. *)
Lemma clampStage64_inside (b : Binary64.float64) :
  Binary64.onStage b = true -> Binary64.clampStage b = b.
Proof.
  unfold Binary64.onStage, Binary64.clampStage. rewrite literal_3_2.
  cbn [Binary64.neg SFopp negb].
  intros H. apply andb_prop in H as [Hlo Hhi].
  unfold Binary64.leb, SFleb in Hlo, Hhi.
  destruct b as [s | s | | s m e].
  - destruct s; vm_compute; reflexivity.
  - destruct s; vm_compute in Hlo, Hhi; discriminate.
  - discriminate.
  - cbn [Binary64.Math_min]. unfold Binary64.ltb, SFltb.
    destruct (SFcompare (S754_finite s m e) _) as [[| |] |] eqn:E1;
      try discriminate.
    + apply SFcompare_Eq_finite_r in E1. rewrite E1. vm_compute. reflexivity.
    + cbn [Binary64.Math_max]. unfold Binary64.gtb, SFltb.
      destruct (SFcompare _ (S754_finite s m e)) as [[| |] |] eqn:E2;
        try discriminate.
      * apply SFcompare_Eq_finite_l in E2. now rewrite E2.
      * reflexivity.
Qed.

Lemma run64_snoc b l p :
  Binary64.run b (l ++ [p]) = Binary64.bodyTarget p (Binary64.run b l).
Proof. unfold Binary64.run. now rewrite fold_left_app. Qed.

(** A body target reached from mount has gone through the clamp. *)
Lemma reachable64_clamped (l : list Binary64.AvatarProps) :
  Binary64.clampStage (Binary64.run Binary64.mount l)
  = Binary64.run Binary64.mount l.
Proof.
  destruct l as [| p l _] using rev_ind.
  - vm_compute. reflexivity.
  - rewrite run64_snoc. apply clampStage64_idempotent.
Qed.

Lemma locomotion64_hold (t : Binary64.Vector3) (b : Binary64.float64)
    (props : Binary64.AvatarProps) :
  Binary64.feedsHand t props ->
  Binary64.gtb (Binary64.dist t b) (Binary64.literal 8 10) = false ->
  Binary64.locomotion props b = b.
Proof.
  intros [[t' [Ht Hx]] [Hg Hth]] Hd.
  destruct props as [tp st look]. cbn in Ht, Hg, Hth. subst tp.
  unfold Binary64.locomotion. cbn [Binary64.targetPosition Binary64.state].
  destruct st; try congruence; try reflexivity.
  unfold Binary64.dist, Binary64.idealX in *. rewrite Hx, Hd. reflexivity.
Qed.

Lemma deadzone64_hold_frames (t : Binary64.Vector3) (b : Binary64.float64) :
  Binary64.clampStage b = b ->
  Binary64.gtb (Binary64.dist t b) (Binary64.literal 8 10) = false ->
  forall l : list Binary64.AvatarProps,
    Forall (Binary64.feedsHand t) l -> Binary64.run b l = b.
Proof.
  intros Hc Hd l. induction l as [| p l IH]; intros Hl.
  - reflexivity.
  - inversion Hl as [| p' l' Hp Hl']; subst.
    change (Binary64.run b (p :: l))
      with (Binary64.run (Binary64.bodyTarget p b) l).
    unfold Binary64.bodyTarget.
    rewrite (locomotion64_hold t b p Hp Hd), Hc. now apply IH.
Qed.

(** C4 (as the code has it).  From a body target [b] reached from mount,
    frames that feed a hand target with the same [x] in a state other than
    [GRABBING] and [THINKING] leave the body target at [b], however many
    they are and whatever their gaze target and the other coordinates of
    the hand target, when the distance the frame computes,
    [Math.abs((x - 0.4) - b)] in binary64, is not greater than 0.8. *)
Theorem deadzone_keeps_body_target :
  forall (t : Binary64.Vector3) (l0 l : list Binary64.AvatarProps),
    let b := Binary64.run Binary64.mount l0 in
    Binary64.gtb (Binary64.dist t b) (Binary64.literal 8 10) = false ->
    Forall (Binary64.feedsHand t) l ->
    Binary64.run b l = b.
Proof.
  intros t l0 l b Hd Hl.
  apply (deadzone64_hold_frames t b); trivial.
  apply reachable64_clamped.
Qed.

Lemma deadzone_keeps_body_target_witness :
  let t := Binary64.mkVector3 (Binary64.ofZ 1) (Binary64.literal 15 10)
             (Binary64.neg (Binary64.literal 18 10)) in
  let i := Binary64.mkProps (Some t) WRITING None in
  Binary64.gtb (Binary64.dist t (Binary64.run Binary64.mount []))
               (Binary64.literal 8 10) = false /\
  Binary64.run (Binary64.run Binary64.mount []) [i; i; i]
  = Binary64.run Binary64.mount [].
Proof.
  intros t i.
  assert (Hd : Binary64.gtb (Binary64.dist t (Binary64.run Binary64.mount []))
                 (Binary64.literal 8 10) = false)
    by (vm_compute; reflexivity).
  split; [exact Hd |].
  apply (deadzone_keeps_body_target t [] [i; i; i] Hd).
  assert (Hi : Binary64.feedsHand t i).
  { split; [exists t; split; reflexivity |]. split; discriminate. }
  apply Forall_cons; [exact Hi |]. apply Forall_cons; [exact Hi |].
  apply Forall_cons; [exact Hi |]. apply Forall_nil.
Defined.

(** C4 fails as stated, in two ways.  In [GRABBING] there is no dead zone:
    from the body target 0 the hand target [x = 1] has
    [|(1 - 0.4) - 0| <= 0.8], and one frame moves the body target to
    [1 - 0.4].  And in [WRITING] the test is made on rounded numbers: from
    the body target 3.2, the stage bound, which writing at [x = 5] reaches
    from mount, the hand target [x = 2.8] has [|(2.8 - 0.4) - 3.2| = 0.8]
    as decimals, but the distance the frame computes from the binary64
    numbers nearest to them is greater than its 0.8, and the body target
    steps to [2.8 - 0.4]. *)
Lemma deadzone_not_as_stated :
  let hand a :=
    Binary64.mkVector3 a (Binary64.literal 15 10)
                       (Binary64.neg (Binary64.literal 18 10)) in
  let grab := Binary64.mkProps (Some (hand (Binary64.ofZ 1))) GRABBING None in
  let far := Binary64.mkProps (Some (hand (Binary64.ofZ 5))) WRITING None in
  let edge :=
    Binary64.mkProps (Some (hand (Binary64.literal 28 10))) WRITING None in
  ((Rabs ((1 - 0.4) - 0) <= 0.8)%R /\
   Binary64.gtb (Binary64.dist (hand (Binary64.ofZ 1)) Binary64.mount)
                (Binary64.literal 8 10) = false /\
   Binary64.run Binary64.mount [grab]
   = Binary64.sub (Binary64.ofZ 1) (Binary64.literal 4 10) /\
   Binary64.run Binary64.mount [grab] <> Binary64.mount) /\
  ((Rabs ((2.8 - 0.4) - 3.2) <= 0.8)%R /\
   Binary64.run Binary64.mount [far] = Binary64.literal 32 10 /\
   Binary64.gtb (Binary64.dist (hand (Binary64.literal 28 10))
                               (Binary64.literal 32 10))
                (Binary64.literal 8 10) = true /\
   Binary64.run (Binary64.literal 32 10) [edge]
   = Binary64.sub (Binary64.literal 28 10) (Binary64.literal 4 10) /\
   Binary64.run (Binary64.literal 32 10) [edge] <> Binary64.literal 32 10).
Proof.
  intros hand grab far edge. split.
  - split; [| split; [| split]].
    + unfold Rabs. destruct (Rcase_abs _); lra.
    + vm_compute. reflexivity.
    + vm_compute. reflexivity.
    + vm_compute. discriminate.
  - split; [| split; [| split; [| split]]].
    + unfold Rabs. destruct (Rcase_abs _); lra.
    + vm_compute. reflexivity.
    + vm_compute. reflexivity.
    + vm_compute. reflexivity.
    + vm_compute. discriminate.
Qed.

(** C5 (as the code has it).  In [GRABBING], and in [WRITING] when the
    distance the frame computes is greater than 0.8, one frame sets the
    body target to [x - 0.4] clamped to the stage, which is [x - 0.4]
    itself, as computed, when that lies on the stage. *)
Theorem deadzone_trip_steps_to_clamped_ideal :
  forall (t : Binary64.Vector3) (st : AvatarState)
         (look : option Binary64.Vector3) (b : Binary64.float64),
    st = GRABBING \/
    (st = WRITING /\
     Binary64.gtb (Binary64.dist t b) (Binary64.literal 8 10) = true) ->
    let b' := Binary64.bodyTarget (Binary64.mkProps (Some t) st look) b in
    b' = Binary64.clampStage (Binary64.idealX t) /\
    (Binary64.onStage (Binary64.idealX t) = true -> b' = Binary64.idealX t).
Proof.
  intros t st look b H b'.
  assert (Hb : b' = Binary64.clampStage (Binary64.idealX t)).
  { subst b'. unfold Binary64.bodyTarget, Binary64.locomotion.
    cbn [Binary64.targetPosition Binary64.state].
    destruct H as [-> | [-> Hd]]; [reflexivity |].
    now rewrite Hd. }
  split; [exact Hb |].
  intros Hin. rewrite Hb. now apply clampStage64_inside.
Qed.

Lemma deadzone_trip_steps_to_clamped_ideal_witness :
  let t := Binary64.mkVector3 (Binary64.ofZ 2) (Binary64.literal 15 10)
             (Binary64.neg (Binary64.literal 18 10)) in
  let b' :=
    Binary64.bodyTarget (Binary64.mkProps (Some t) WRITING None)
                        Binary64.mount in
  (WRITING = GRABBING \/
   (WRITING = WRITING /\
    Binary64.gtb (Binary64.dist t Binary64.mount) (Binary64.literal 8 10)
    = true)) /\
  Binary64.onStage (Binary64.idealX t) = true /\
  b' = Binary64.idealX t.
Proof.
  intros t b'.
  assert (H : WRITING = GRABBING \/
              (WRITING = WRITING /\
               Binary64.gtb (Binary64.dist t Binary64.mount)
                            (Binary64.literal 8 10) = true)).
  { right. split; [reflexivity | vm_compute; reflexivity]. }
  assert (Hin : Binary64.onStage (Binary64.idealX t) = true)
    by (vm_compute; reflexivity).
  split; [exact H |]. split; [exact Hin |].
  exact (proj2 (deadzone_trip_steps_to_clamped_ideal t WRITING None
                  Binary64.mount H) Hin).
Defined.

(** C5 fails as stated: from the body target 0 the hand target [x = 3.9],
    near the right edge of the board, is out of the dead zone, and the
    frame leaves the body target at the stage bound 3.2, not at
    [3.9 - 0.4 = 3.5]. *)
Lemma deadzone_trip_not_exact :
  let t := Binary64.mkVector3 (Binary64.literal 39 10) (Binary64.literal 15 10)
             (Binary64.neg (Binary64.literal 18 10)) in
  let b' :=
    Binary64.bodyTarget (Binary64.mkProps (Some t) WRITING None)
                        Binary64.mount in
  (Rabs ((3.9 - 0.4) - 0) > 0.8)%R /\
  Binary64.gtb (Binary64.dist t Binary64.mount) (Binary64.literal 8 10)
  = true /\
  Binary64.idealX t = Binary64.literal 35 10 /\
  b' = Binary64.literal 32 10 /\
  b' <> Binary64.idealX t.
Proof.
  intros t b'. split; [| split; [| split; [| split]]].
  - unfold Rabs. destruct (Rcase_abs _); lra.
  - vm_compute. reflexivity.
  - vm_compute. reflexivity.
  - vm_compute. reflexivity.
  - vm_compute. discriminate.
Qed.

(** At the threshold itself the frame holds: from the body target 0 the
    hand target [x = -0.4] gives the computed distance 0.8, the number the
    test compares with, and [0.8 > 0.8] is false. *)
Lemma deadzone_threshold_holds :
  let t := Binary64.mkVector3 (Binary64.literal (-4) 10)
             (Binary64.literal 15 10) (Binary64.neg (Binary64.literal 18 10)) in
  Binary64.dist t Binary64.mount = Binary64.literal 8 10 /\
  Binary64.bodyTarget (Binary64.mkProps (Some t) WRITING None) Binary64.mount
  = Binary64.mount.
Proof. intros t. split; vm_compute; reflexivity. Qed.

(** ** The stage bounds *)

Lemma sub_Fin_notNaN (x : number) (c : R) :
  isNaN x = false -> isNaN (x - Fin c) = false.
Proof. destruct x; intros H; try discriminate; reflexivity. Qed.

Lemma mul_pos_notNaN (x : number) (c : R) :
  (0 < c)%R -> isNaN x = false -> isNaN (x * Fin c) = false.
Proof.
  intros Hc.
  destruct x; intros H; try discriminate; try reflexivity.
  - cbn. unfold Rsign. js_cases; reflexivity.
  - cbn. unfold Rsign. js_cases; reflexivity.
Qed.

Lemma locomotion_notNaN (i : FrameInput) (b : number) :
  directiveXNotNaN i = true ->
  isNaN b = false ->
  isNaN (locomotion (inProps i) b) = false.
Proof.
  destruct i as [[tp st look] time delta sh]. unfold directiveXNotNaN. cbn.
  intros Hd Hb. apply andb_prop in Hd as [Ht Hl].
  apply negb_true_iff in Ht, Hl.
  unfold locomotion. cbn [targetPosition state lookAtTarget].
  destruct tp as [t |]; [| destruct look as [l |]]; cbn in Ht, Hl.
  - destruct st; trivial.
    + destruct (_ >? _); trivial. now apply sub_Fin_notNaN.
    + now apply sub_Fin_notNaN.
  - destruct st; trivial. apply mul_pos_notNaN; [lra | trivial].
  - trivial.
Qed.

Lemma frame_onStage (i : FrameInput) (s : AnimatorState) :
  directiveXNotNaN i = true ->
  onStage (bodyTargetX s) ->
  onStage (bodyTargetX (frame s i)).
Proof.
  intros Hd [r [Hr _]]. unfold frame. rewrite bodyTargetX_next.
  apply clampStage_onStage, locomotion_notNaN; trivial.
  now rewrite Hr.
Qed.

Lemma runFrames_onStage (l : list FrameInput) :
  forall s : AnimatorState,
    forallb directiveXNotNaN l = true ->
    onStage (bodyTargetX s) ->
    onStage (bodyTargetX (runFrames s l)).
Proof.
  induction l as [| i l IH]; intros s Hl Hs.
  - exact Hs.
  - cbn in Hl. apply andb_prop in Hl as [Hi Hl].
    cbn [runFrames fold_left]. apply IH; trivial.
    now apply frame_onStage.
Qed.

(** C6 (as the code has it).  From mount, after any sequence of frames in
    which neither the hand target nor the gaze target has [NaN] as its [x]
    (infinite coordinates and any frame times are allowed), the body target
    is a real number of [-3.2, 3.2]. *)
Theorem bodyTargetX_on_stage :
  forall l : list FrameInput,
    forallb directiveXNotNaN l = true ->
    exists r : R,
      bodyTargetX (runFrames initialState l) = Fin r /\
      (-3.2 <= r <= 3.2)%R.
Proof.
  intros l Hl. apply runFrames_onStage; trivial.
  exists 0%R. split; [reflexivity | lra].
Qed.

Lemma bodyTargetX_on_stage_witness :
  let i := mkInput (mkProps (Some (mkVector3 PosInf (Fin 1.5) (Fin 0)))
                            GRABBING (Some (vec 0 1 1.5)))
                   (Fin 0) (Fin 0.016) shoulderAtMount in
  forallb directiveXNotNaN [i] = true /\
  exists r : R,
    bodyTargetX (runFrames initialState [i]) = Fin r /\
    (-3.2 <= r <= 3.2)%R.
Proof.
  intros i. split.
  - reflexivity.
  - apply (bodyTargetX_on_stage [i]). reflexivity.
Defined.

(** C6 fails as stated: a hand target whose [x] is [NaN], fed in
    [GRABBING], makes the body target [NaN], which is not in
    [-3.2, 3.2]. *)
Lemma bodyTargetX_off_stage :
  let i := mkInput (mkProps (Some (mkVector3 NaN (Fin 1.5) (Fin 0)))
                            GRABBING None)
                   (Fin 0) (Fin 0.016) shoulderAtMount in
  bodyTargetX (runFrames initialState [i]) = NaN /\
  ~ onStage (bodyTargetX (runFrames initialState [i])).
Proof.
  intros i.
  assert (Hs : bodyTargetX (runFrames initialState [i]) = NaN)
    by reflexivity.
  split; [exact Hs |].
  rewrite Hs. intros [r [Hr _]]. discriminate.
Qed.

(** ** Non-finite targets *)

(** A coordinate smoothed towards a non-finite target is non-finite. *)
Lemma lerp_coordinate_nonfinite (c t alpha : number) :
  isFinite t = false -> isFinite (c + (t - c) * alpha) = false.
Proof.
  intros Ht.
  destruct t as [r | | |]; try discriminate;
    destruct c as [rc | | |]; cbn;
    destruct alpha as [ra | | |]; cbn; trivial;
    unfold Rsign; js_cases; reflexivity.
Qed.

Lemma Vector3_lerp_nonfinite (this v : Vector3) (alpha : number) :
  finiteVector v = false -> finiteVector (Vector3_lerp this v alpha) = false.
Proof.
  unfold finiteVector, Vector3_lerp. cbn [vx vy vz]. intros H.
  apply andb_false_iff in H as [H | H];
    [apply andb_false_iff in H as [H | H] |].
  - now rewrite (lerp_coordinate_nonfinite _ _ _ H).
  - rewrite (lerp_coordinate_nonfinite _ _ _ H). apply andb_false_iff.
    left. apply andb_false_r.
  - rewrite (lerp_coordinate_nonfinite _ _ _ H). apply andb_false_r.
Qed.

(** C7 (as the code has it).  The frame has no test for non-finite
    coordinates: in every state but [THINKING], a hand target with a
    non-finite coordinate makes the smoothed hand target non-finite, and a
    gaze target with a non-finite coordinate makes the smoothed gaze point
    non-finite, whatever the previous state and the frame time. *)
Theorem nonfinite_target_propagates :
  forall (st : AvatarState) (t look : option Vector3) time delta
         shoulderPos s,
    st <> THINKING ->
    let s' := next (useFrame (mkProps t st look) time delta shoulderPos s) in
    (nonFinite t = true -> finiteVector (currentHandTarget s') = false) /\
    (nonFinite look = true -> finiteVector (headLookAt s') = false).
Proof.
  intros st t look time delta shoulderPos s Hst s'. subst s'.
  assert (Hth : state_eqb st THINKING = false)
    by (destruct st; cbn; congruence).
  cbn [next useFrame currentHandTarget headLookAt].
  split; intros H.
  - destruct t as [t |]; [| discriminate]. cbn in H.
    apply negb_true_iff in H.
    apply Vector3_lerp_nonfinite.
    unfold activePos. cbn [state targetPosition]. now rewrite Hth.
  - destruct look as [l |]; [| discriminate]. cbn in H.
    apply negb_true_iff in H.
    apply Vector3_lerp_nonfinite.
    unfold targetLook. cbn [state lookAtTarget]. now rewrite Hth.
Qed.

Lemma nonfinite_target_propagates_witness :
  let t := Some (mkVector3 NaN (Fin 1.5) (Fin 0)) in
  let look := Some (mkVector3 (Fin 0) PosInf (Fin 1.5)) in
  let s' := next (useFrame (mkProps t WRITING look) (Fin 0) (Fin 0.016)
                           shoulderAtMount initialState) in
  WRITING <> THINKING /\
  nonFinite t = true /\
  nonFinite look = true /\
  finiteVector (currentHandTarget s') = false /\
  finiteVector (headLookAt s') = false.
Proof.
  intros t look s'.
  assert (Hst : WRITING <> THINKING) by discriminate.
  destruct (nonfinite_target_propagates WRITING t look (Fin 0) (Fin 0.016)
              shoulderAtMount initialState Hst) as [Hh Hl].
  split; [exact Hst |]. split; [reflexivity |]. split; [reflexivity |].
  split; [apply Hh | apply Hl]; reflexivity.
Defined.

(** C7 fails as stated: a hand target whose [x] is [NaN], fed in
    [GRABBING] to the state at mount, gives a state that differs from the
    previous one: its body target is [NaN]. *)
Lemma nonfinite_target_not_held :
  let p := mkProps (Some (mkVector3 NaN (Fin 1.5) (Fin 0))) GRABBING None in
  let s' := next (useFrame p (Fin 0) (Fin 0.016) shoulderAtMount
                           initialState) in
  nonFinite (targetPosition p) = true /\
  bodyTargetX initialState = Fin 0 /\
  bodyTargetX s' = NaN /\
  s' <> initialState.
Proof.
  intros p s'.
  assert (Hs : bodyTargetX s' = NaN) by reflexivity.
  repeat split; trivial.
  intros H. rewrite H in Hs. discriminate.
Qed.

(** ** The thinking pose *)

(** C9.  In [THINKING] with a hand target, whatever that target is, the
    point the arm is driven to is the root position plus
    [(0.15, 1.6, 0.35)], the smoothed hand target moves towards that point
    and not towards the hand target, and the body target is 0. *)
Theorem thinking_overrides_hand_target :
  forall (t : Vector3) look time delta shoulderPos s,
    let props := mkProps (Some t) THINKING look in
    let s' := next (useFrame props time delta shoulderPos s) in
    let thinkPos := Vector3_add (groupPosition s') (vec 0.15 1.6 0.35) in
    activePos props (groupPosition s') = thinkPos /\
    currentHandTarget s'
    = Vector3_lerp (currentHandTarget s) thinkPos (dt delta * Fin 6) /\
    bodyTargetX s' = Fin 0.
Proof.
  intros t look time delta shoulderPos s props s' thinkPos.
  split; [reflexivity |]. split; [reflexivity |].
  subst s' props. rewrite bodyTargetX_next.
  cbn [locomotion targetPosition state].
  apply clampStage_inside. lra.
Qed.

(** ** The elbow *)

Lemma maxReach_Fin : maxReach = Fin 1.44.
Proof. unfold maxReach, upperArmLen, lowerArmLen. cbn. f_equal. lra. Qed.

Lemma cosElbow_Fin (d : R) : cosElbow (Fin d) = Fin (RcosElbow d).
Proof.
  unfold cosElbow. rewrite maxReach_Fin. unfold upperArmLen, lowerArmLen.
  autorewrite with js_fin. rewrite div_Fin by lra. reflexivity.
Qed.

Lemma Rclamp1_bounds (c : R) : (-1 <= Rmax (-1) (Rmin 1 c) <= 1)%R.
Proof.
  unfold Rmax, Rmin.
  destruct (Rle_dec 1 c); destruct (Rle_dec (-1) _); lra.
Qed.

Lemma acosArgument_Fin (d : R) :
  acosArgument (Fin d) = Fin (Rmax (-1) (Rmin 1 (RcosElbow d))).
Proof.
  unfold acosArgument. rewrite cosElbow_Fin.
  now autorewrite with js_fin.
Qed.

Lemma elbowAngle_Fin (d : R) :
  elbowAngle (Fin d) = Fin (acos (Rmax (-1) (Rmin 1 (RcosElbow d)))).
Proof.
  unfold elbowAngle. rewrite acosArgument_Fin.
  apply Math_acos_Fin, Rclamp1_bounds.
Qed.

(** C2 (as the code has it).  In every frame in which the smoothed hand
    target and the shoulder are finite, the argument given to [Math.acos]
    is a real of [-1, 1] (it has gone through the clamp), and the angle set
    on the forearm is its arc cosine, a real of [0, PI]. *)
Theorem elbow_angle_in_range :
  forall props time delta shoulderPos s,
    let f := useFrame props time delta shoulderPos s in
    let hand := currentHandTarget (next f) in
    finiteVector hand = true ->
    finiteVector shoulderPos = true ->
    exists c : R,
      acosArgument (distanceTo hand shoulderPos) = Fin c /\
      (-1 <= c <= 1)%R /\
      foreArmRotationX f = Fin (acos c) /\
      (0 <= acos c <= PI)%R.
Proof.
  intros props time delta shoulderPos s f hand Hh Hs.
  destruct (distanceTo_finite hand shoulderPos Hh Hs) as [d [Hd _]].
  exists (Rmax (-1) (Rmin 1 (RcosElbow d))).
  change (foreArmRotationX f) with (elbowAngle (distanceTo hand shoulderPos)).
  rewrite Hd. repeat split.
  - apply acosArgument_Fin.
  - apply Rclamp1_bounds.
  - apply Rclamp1_bounds.
  - apply elbowAngle_Fin.
  - apply acos_bound.
  - apply acos_bound.
Qed.

Lemma elbow_angle_in_range_witness :
  let f := useFrame (mkProps (Some (vec 2 1.5 (-1.8))) WRITING None)
                    (Fin 0) (Fin 0.016) shoulderAtMount initialState in
  let hand := currentHandTarget (next f) in
  finiteVector hand = true /\
  finiteVector shoulderAtMount = true /\
  exists c : R,
    acosArgument (distanceTo hand shoulderAtMount) = Fin c /\
    (-1 <= c <= 1)%R /\
    foreArmRotationX f = Fin (acos c) /\
    (0 <= acos c <= PI)%R.
Proof.
  intros f hand.
  assert (Hh : finiteVector hand = true).
  { subst hand f. cbn [next useFrame currentHandTarget]. unfold dt.
    rewrite Math_min_Fin. reflexivity. }
  split; [exact Hh |]. split; [reflexivity |].
  apply (elbow_angle_in_range
           (mkProps (Some (vec 2 1.5 (-1.8))) WRITING None)
           (Fin 0) (Fin 0.016) shoulderAtMount initialState).
  - exact Hh.
  - reflexivity.
Defined.

(** At and beyond the reach limit the cosine is that of the limit. *)
Lemma RcosElbow_full_reach (d : R) :
  (1.44 <= d)%R -> RcosElbow d = (-10211 / 10500)%R.
Proof.
  intros Hd. unfold RcosElbow. rewrite Rmin_right by lra. lra.
Qed.

Lemma elbowAngle_full_reach (d : R) :
  (1.44 <= d)%R -> elbowAngle (Fin d) = Fin (acos (-10211 / 10500)).
Proof.
  intros Hd. rewrite elbowAngle_Fin, (RcosElbow_full_reach d Hd).
  do 2 f_equal. unfold Rmax, Rmin.
  destruct (Rle_dec 1 (-10211 / 10500)); destruct (Rle_dec (-1) _); lra.
Qed.

(** The angle at the reach limit is obtuse: strictly between a right angle
    and a straight one. *)
Lemma full_reach_angle_bounds :
  (PI / 2 < acos (-10211 / 10500) < PI)%R.
Proof.
  split.
  - replace (-10211 / 10500)%R with (- (10211 / 10500))%R by lra.
    rewrite acos_opp, acos_atan by lra.
    pose proof (atan_bound (sqrt (1 - (10211 / 10500)²) / (10211 / 10500))).
    lra.
  - apply acos_bound_lt. lra.
Qed.

Lemma reachingFrame_distance :
  distanceTo (currentHandTarget (next reachingFrame)) shoulderAtMount
  = Fin (sqrt 4.5184).
Proof.
  unfold reachingFrame, shoulderAtMount.
  cbn [next useFrame currentHandTarget activePos state targetPosition
       state_eqb handLerpSpeed initialState].
  unfold dt. rewrite Math_min_Fin, mul_Fin, Vector3_lerp_vec, distanceTo_vec.
  do 2 f_equal. lra.
Qed.

Lemma reachingFrame_beyond_reach : (1.44 <= sqrt 4.5184)%R.
Proof.
  rewrite <- (sqrt_square 1.44) by lra. apply sqrt_le_1_alt. lra.
Qed.

(** The distance from the shoulder of a point of the forearm, [l] along
    it, by the rotation of the forearm group: [0.7 + l] when the rotation
    is 0, and less as the rotation grows towards [PI]. *)
Lemma distance_on_rig (a l : R) :
  Vector3_length (foreArmToArm (Fin a) (vec 0 l 0))
  = Fin (sqrt (0.7 * 0.7 + l * l + 2 * 0.7 * l * cos a)).
Proof.
  unfold foreArmToArm, rotateX, Vector3_add, Vector3_length, vec.
  cbn [vx vy vz Math_cos Math_sin]. autorewrite with js_fin.
  rewrite Math_sqrt_Fin.
  - do 2 f_equal. pose proof (sin2_cos2 a) as H. unfold Rsqr in H. nra.
  - pose proof (Rle_0_sqr (0.7 + (cos a * l - sin a * 0))) as H1.
    pose proof (Rle_0_sqr (0 + (sin a * l + cos a * 0))) as H2.
    unfold Rsqr in H1, H2. lra.
Qed.

(** C1: the code does not do what the claim says.  In the first frame
    after mount, writing at [(1, 1.5, 0)], the distance from the shoulder
    to the smoothed hand target is [sqrt 4.5184], about 2.13 and beyond the
    reach limit 1.44.  The rotation set on the forearm group is the arc
    cosine of [(0.7^2 + 0.75^2 - 1.44^2) / (2 * 0.7 * 0.75) = -10211/10500],
    the angle between the two bones of a triangle, about 2.906 and not 0.
    On the rig a rotation of 0 is the straight arm, with the end of the
    forearm 1.45 and the hand 1.48 from the shoulder; the rotation the
    frame sets folds the forearm back on the upper arm and leaves both
    less than 0.2 from the shoulder. *)
Theorem elbow_folds_at_full_reach :
  let rot := foreArmRotationX reachingFrame in
  distanceTo (currentHandTarget (next reachingFrame)) shoulderAtMount
  = Fin (sqrt 4.5184) /\
  (0.7 + 0.75 - 0.01 <= sqrt 4.5184)%R /\
  rot = Fin (acos (-10211 / 10500)) /\
  (PI / 2 < acos (-10211 / 10500) < PI)%R /\
  rot <> Fin 0 /\
  Vector3_length (foreArmToArm rot foreArmEnd) = Fin (sqrt 0.0314) /\
  Vector3_length (foreArmToArm rot handInForeArm) = Fin (sqrt 0.036456) /\
  (sqrt 0.0314 < 0.2)%R /\ (sqrt 0.036456 < 0.2)%R /\
  Vector3_length (foreArmToArm (Fin 0) foreArmEnd) = Fin 1.45 /\
  Vector3_length (foreArmToArm (Fin 0) handInForeArm) = Fin 1.48.
Proof.
  intros rot.
  pose proof reachingFrame_beyond_reach as Hreach.
  pose proof full_reach_angle_bounds as Hb. pose proof PI_RGT_0 as Hpi.
  assert (Hrot : rot = Fin (acos (-10211 / 10500))).
  { subst rot.
    change (foreArmRotationX reachingFrame)
      with (elbowAngle
              (distanceTo (currentHandTarget (next reachingFrame))
                          shoulderAtMount)).
    rewrite reachingFrame_distance. now apply elbowAngle_full_reach. }
  assert (Hsmall : forall q : R, (0 <= q < 0.04)%R -> (sqrt q < 0.2)%R).
  { intros q Hq. rewrite <- (sqrt_square 0.2) by lra.
    apply sqrt_lt_1_alt. lra. }
  split; [exact reachingFrame_distance |]. split; [lra |].
  split; [exact Hrot |]. split; [exact Hb |].
  split; [rewrite Hrot; intros H; injection H; lra |].
  unfold foreArmEnd, handInForeArm.
  split; [| split; [| split; [| split; [| split]]]].
  - rewrite Hrot, distance_on_rig, cos_acos by lra. do 2 f_equal. lra.
  - rewrite Hrot, distance_on_rig, cos_acos by lra. do 2 f_equal. lra.
  - apply Hsmall. lra.
  - apply Hsmall. lra.
  - rewrite distance_on_rig, cos_0. f_equal. apply sqrt_lem_1; lra.
  - rewrite distance_on_rig, cos_0. f_equal. apply sqrt_lem_1; lra.
Qed.

(** ** Smoothing *)

(** One step of [Vector3.lerp] scales the distance to the target by
    [|1 - alpha|]. *)
Lemma Vector3_lerp_distance (this v : Vector3) (alpha : R) :
  finiteVector this = true ->
  finiteVector v = true ->
  exists d : R,
    distanceTo this v = Fin d /\ (0 <= d)%R /\
    distanceTo (Vector3_lerp this v (Fin alpha)) v
    = Fin (Rabs (1 - alpha) * d).
Proof.
  intros Hthis Hv.
  destruct (finiteVector_vec this Hthis) as [a [b [c ->]]].
  destruct (finiteVector_vec v Hv) as [a' [b' [c' ->]]].
  rewrite Vector3_lerp_vec, !distanceTo_vec.
  eexists. split; [reflexivity |]. split; [apply sqrt_pos |].
  f_equal. rewrite <- sqrt_Rsqr_abs, <- sqrt_mult_alt by apply Rle_0_sqr.
  f_equal. unfold Rsqr. ring.
Qed.

Lemma Rabs_one_minus (alpha : R) :
  (0 <= alpha <= 2)%R -> (Rabs (1 - alpha) <= 1)%R.
Proof. intros H. unfold Rabs. destruct (Rcase_abs _); lra. Qed.

Lemma Vector3_lerp_contracts (this v : Vector3) (alpha : R) :
  finiteVector this = true ->
  finiteVector v = true ->
  (0 <= alpha <= 2)%R ->
  le_number (distanceTo (Vector3_lerp this v (Fin alpha)) v)
            (distanceTo this v).
Proof.
  intros Hthis Hv Ha.
  destruct (Vector3_lerp_distance this v alpha Hthis Hv)
    as [d [Hd [Hpos Hd']]].
  exists (Rabs (1 - alpha) * d)%R, d. repeat split; trivial.
  pose proof (Rabs_one_minus alpha Ha). pose proof (Rabs_pos (1 - alpha)).
  nra.
Qed.

(** The same for [MathUtils.lerp] on a coordinate. *)
Lemma lerp_contracts (x y alpha : R) :
  (0 <= alpha <= 2)%R ->
  le_number (Math_abs (lerp (Fin x) (Fin y) (Fin alpha) - Fin y))
            (Math_abs (Fin x - Fin y)).
Proof.
  intros Ha. unfold lerp. autorewrite with js_fin.
  eexists _, _. split; [reflexivity |]. split; [reflexivity |].
  replace ((1 - alpha) * x + alpha * y - y)%R
    with ((1 - alpha) * (x - y))%R by ring.
  rewrite Rabs_mult.
  pose proof (Rabs_one_minus alpha Ha). pose proof (Rabs_pos (x - y)).
  nra.
Qed.

(** The interpolation factors [dt * speed] of a frame. *)
Lemma body_factor props (d : R) :
  (0 <= d)%R ->
  exists alpha : R,
    dt (Fin d) * bodyLerpSpeed props = Fin alpha /\ (0 <= alpha <= 1)%R.
Proof.
  intros Hd. destruct (Rmin_dt_bounds d Hd) as [Hm _].
  unfold dt, bodyLerpSpeed. rewrite Math_min_Fin.
  destruct (state_eqb _ _); rewrite mul_Fin; eexists; split;
    try reflexivity; lra.
Qed.

Lemma head_factor props (d : R) :
  (0 <= d)%R ->
  exists alpha : R,
    dt (Fin d) * headLerpSpeed props = Fin alpha /\ (0 <= alpha <= 1)%R.
Proof.
  intros Hd. destruct (Rmin_dt_bounds d Hd) as [Hm _].
  unfold dt, headLerpSpeed. rewrite Math_min_Fin.
  destruct (state_eqb _ _); rewrite mul_Fin; eexists; split;
    try reflexivity; lra.
Qed.

Lemma spine_factor (d : R) :
  (0 <= d)%R ->
  exists alpha : R,
    dt (Fin d) * Fin 10 = Fin alpha /\ (0 <= alpha <= 1)%R.
Proof.
  intros Hd. destruct (Rmin_dt_bounds d Hd) as [Hm _].
  unfold dt. rewrite Math_min_Fin, mul_Fin.
  eexists; split; try reflexivity; lra.
Qed.

Lemma hand_factor props (d : R) :
  (0 <= d)%R ->
  exists alpha : R,
    dt (Fin d) * handLerpSpeed props = Fin alpha /\
    (0 <= alpha <= 2.5)%R /\
    (state props <> WRITING \/ (d <= 0.04)%R -> (alpha <= 2)%R).
Proof.
  intros Hd. destruct (Rmin_dt_bounds d Hd) as [Hm Hle].
  unfold dt, handLerpSpeed. rewrite Math_min_Fin.
  destruct props as [t st look]. cbn [state].
  destruct st; cbn [state_eqb]; rewrite mul_Fin; eexists;
    (split; [reflexivity |]); (split; [lra |]); intros [H | H];
    try congruence; lra.
Qed.

Lemma locomotion_finite props (b : R) :
  finiteTarget (targetPosition props) = true ->
  finiteTarget (lookAtTarget props) = true ->
  exists r : R, locomotion props (Fin b) = Fin r.
Proof.
  destruct props as [t st look]. cbn [targetPosition lookAtTarget].
  intros Ht Hl. unfold locomotion. cbn [targetPosition lookAtTarget state].
  destruct t as [t |]; [| destruct look as [l |]].
  - destruct (finiteVector_vec t Ht) as [x [y [z ->]]]. cbn [vec vx].
    destruct st; try (eexists; reflexivity).
    destruct (_ >? _); eexists; reflexivity.
  - destruct (finiteVector_vec l Hl) as [x [y [z ->]]]. cbn [vec vx].
    destruct st; eexists; reflexivity.
  - eexists; reflexivity.
Qed.

(** Where the factor is small enough.  In a frame with finite inputs and a
    frame time [delta >= 0], each smoothed quantity whose interpolation
    factor [dt * speed] is at most 2 ends no farther from the target of the
    frame than it started: the gaze point, the body position and, while
    writing, the height of the spine in every case, and the hand target in
    every state but [WRITING], and in [WRITING] when [delta <= 0.04]. *)
Theorem smoothing_does_not_move_away :
  forall props time (d : R) shoulderPos s,
    finiteState s = true ->
    finiteTarget (targetPosition props) = true ->
    finiteTarget (lookAtTarget props) = true ->
    (0 <= d)%R ->
    let s' := next (useFrame props time (Fin d) shoulderPos s) in
    le_number (distanceTo (headLookAt s') (targetLook props))
              (distanceTo (headLookAt s) (targetLook props)) /\
    le_number (Math_abs (vx (bodyPosition s') - bodyTargetX s'))
              (Math_abs (vx (bodyPosition s) - bodyTargetX s')) /\
    (state props = WRITING ->
     le_number (Math_abs (spinePositionY s' - Fin 1.0))
               (Math_abs (spinePositionY s - Fin 1.0))) /\
    (state props <> WRITING \/ (d <= 0.04)%R ->
     le_number
       (distanceTo (currentHandTarget s') (activePos props (groupPosition s')))
       (distanceTo (currentHandTarget s) (activePos props (groupPosition s')))).
Proof.
  intros props time d shoulderPos [hand head bpos bt gpos spine]
    Hs Ht Hl Hd s'.
  unfold finiteState in Hs.
  cbn [currentHandTarget headLookAt bodyPosition bodyTargetX groupPosition
       spinePositionY] in Hs.
  do 5 (apply andb_prop in Hs as [Hs ?]).
  destruct (isFinite_Fin bt) as [b ->]; trivial.
  destruct (isFinite_Fin spine) as [y ->]; trivial.
  destruct (finiteVector_vec bpos) as [p1 [p2 [p3 ->]]]; trivial.
  destruct (finiteVector_vec gpos) as [g1 [g2 [g3 ->]]]; trivial.
  destruct (locomotion_finite props b Ht Hl) as [r Hr].
  destruct (body_factor props d Hd) as [ab [Hab Hab1]].
  destruct (head_factor props d Hd) as [ah [Hah Hah1]].
  destruct (spine_factor d Hd) as [asp [Hasp Hasp1]].
  destruct (hand_factor props d Hd) as [ac [Hac [Hac0 Hac2]]].
  subst s'.
  cbn [next useFrame currentHandTarget headLookAt bodyPosition bodyTargetX
       groupPosition spinePositionY vec vx vy vz].
  rewrite Hab, Hah, Hac, Hr, clampStage_Fin.
  split; [| split; [| split]].
  - apply Vector3_lerp_contracts; trivial; [| lra].
    unfold targetLook. destruct (state_eqb _ _); [reflexivity |].
    destruct (lookAtTarget props); [exact Hl | reflexivity].
  - apply lerp_contracts. lra.
  - intros Hw. unfold spineY. rewrite Hw. cbn [state_eqb negb].
    rewrite Hasp. apply lerp_contracts. lra.
  - intros Hw. apply Vector3_lerp_contracts; trivial;
      [| specialize (Hac2 Hw); lra].
    unfold activePos. destruct (state_eqb _ _); [reflexivity |].
    destruct (targetPosition props); [exact Ht | reflexivity].
Qed.

Lemma smoothing_does_not_move_away_witness :
  let target := vec 2 1.5 (-1.8) in
  let props := mkProps (Some target) WRITING None in
  let s' := next (useFrame props (Fin 0) (Fin (1 / 60)) shoulderAtMount
                           initialState) in
  (0 <= 1 / 60 <= 0.04)%R /\
  le_number (distanceTo (currentHandTarget s') target)
            (distanceTo (currentHandTarget initialState) target).
Proof.
  intros target props s'.
  split; [lra |].
  apply (smoothing_does_not_move_away props (Fin 0) (1 / 60)
           shoulderAtMount initialState); try reflexivity.
  - lra.
  - right. lra.
Defined.

(** C3 does not hold of the hand target while writing.  With the frame
    time 0.05, which the clamp lets through, the factor is
    [0.05 * 50 = 2.5]: the smoothed hand target goes from [(1, 1.5, 0)], at
    distance 1 from the target [(2, 1.5, 0)], to [(3.5, 1.5, 0)], on the
    other side of the target and at distance 1.5 from it. *)
Lemma writing_hand_moves_away :
  let target := vec 2 1.5 0 in
  let s' := next (useFrame (mkProps (Some target) WRITING None)
                           (Fin 0) (Fin 0.05) shoulderAtMount
                           initialState) in
  dt (Fin 0.05) = Fin 0.05 /\
  currentHandTarget initialState = vec 1 1.5 0 /\
  distanceTo (currentHandTarget initialState) target = Fin 1 /\
  currentHandTarget s' = vec 3.5 1.5 0 /\
  distanceTo (currentHandTarget s') target = Fin 1.5 /\
  (1 < 1.5)%R.
Proof.
  intros target s'.
  assert (Hdt : dt (Fin 0.05) = Fin 0.05).
  { unfold dt. rewrite Math_min_Fin, Rmin_left by lra. reflexivity. }
  assert (Hs : currentHandTarget s' = vec 3.5 1.5 0).
  { subst s' target.
    cbn [next useFrame currentHandTarget activePos state targetPosition
         state_eqb handLerpSpeed initialState].
    rewrite Hdt, mul_Fin, Vector3_lerp_vec. unfold vec. f_equal; f_equal; lra. }
  split; [exact Hdt |]. split; [reflexivity |]. split; [| split; [| split]].
  - subst target. cbn [initialState currentHandTarget].
    rewrite distanceTo_vec. f_equal. apply sqrt_lem_1; lra.
  - exact Hs.
  - rewrite Hs. subst target.
    rewrite distanceTo_vec. f_equal. apply sqrt_lem_1; lra.
  - lra.
Qed.

(** ** The chalk *)

(** C10.  The chalk in the right hand is visible exactly in the state
    [WRITING]; in [IDLE], [THINKING], [GRABBING] and [WALKING] it is
    hidden. *)
Theorem chalk_visible_iff_writing :
  forall props : AvatarProps,
    (chalkVisible props = true <-> state props = WRITING) /\
    chalkVisible props
    = match state props with
      | WRITING => true
      | IDLE | THINKING | GRABBING | WALKING => false
      end.
Proof.
  intros [t st l]. unfold chalkVisible. cbn.
  destruct st; cbn; repeat split; intros; congruence.
Qed.

(** * Further properties of the frame callback *)

(** ** The body on the stage *)

Lemma clampStage_idempotent (x : number) :
  clampStage (clampStage x) = clampStage x.
Proof.
  destruct (clampStage_NaN_or_onStage x) as [H | [r [H Hr]]]; rewrite H.
  - reflexivity.
  - now apply clampStage_inside.
Qed.

Lemma lerp_Fin (x y alpha : R) :
  lerp (Fin x) (Fin y) (Fin alpha) = Fin ((1 - alpha) * x + alpha * y).
Proof. reflexivity. Qed.

(** A step of [MathUtils.lerp] with a factor of [0, 1] stays between its
    two ends. *)
Lemma lerp_between (lo hi x y alpha : R) :
  (lo <= x <= hi)%R -> (lo <= y <= hi)%R -> (0 <= alpha <= 1)%R ->
  (lo <= (1 - alpha) * x + alpha * y <= hi)%R.
Proof. intros Hx Hy Ha. nra. Qed.

Lemma frame_bodyOnStage (i : FrameInput) (s : AnimatorState) :
  plainFrame i -> bodyOnStage s -> bodyOnStage (frame s i).
Proof.
  intros [Hx [d [Hd Hd0]]] [Ht [p [Hp [Hpr _]]]].
  pose proof (frame_onStage i s Hx Ht) as Ht'.
  split; [exact Ht' |].
  destruct Ht' as [r [Hr Hrr]]. unfold frame in Hr |- *.
  rewrite bodyTargetX_next in Hr.
  destruct (body_factor (inProps i) d Hd0) as [alpha [Ha Har]].
  cbn [next useFrame bodyPosition groupPosition vx].
  rewrite Hd, Ha, Hr, Hp, lerp_Fin.
  eexists. split; [reflexivity |]. split; [| reflexivity].
  now apply lerp_between.
Qed.

Lemma runFrames_bodyOnStage (l : list FrameInput) :
  forall s : AnimatorState,
    Forall plainFrame l -> bodyOnStage s -> bodyOnStage (runFrames s l).
Proof.
  induction l as [| i l IH]; intros s Hl Hs.
  - exact Hs.
  - inversion Hl as [| i' l' Hi Hl']; subst.
    cbn [runFrames fold_left]. apply IH; trivial.
    now apply frame_bodyOnStage.
Qed.

Lemma initialState_bodyOnStage : bodyOnStage initialState.
Proof.
  split.
  - exists 0%R. split; [reflexivity | lra].
  - exists 0%R. repeat split; lra.
Qed.

(** In binary64 a step of [MathUtils.lerp] can end beyond its target: with
    the body at the stage bound 3.2, its target there as well and the
    factor [0.05 * 4] of a slow frame while writing,
    [(1 - t) * 3.2 + t * 3.2] is the number that follows 3.2. *)
Lemma lerp_rounds_past_target :
  let bound := Binary64.literal 32 10 in
  let factor := Binary64.mul (Binary64.literal 5 100) (Binary64.ofZ 4) in
  Binary64.lerp bound bound factor
  = S754_finite false 7205759403792795 (-51) /\
  bound = S754_finite false 7205759403792794 (-51) /\
  Binary64.gtb (Binary64.lerp bound bound factor) bound = true.
Proof. intros bound factor. repeat split; vm_compute; reflexivity. Qed.

(** X1.  The avatar does not leave the stage: from mount, after any frames
    whose targets have no [NaN] as their [x] and whose frame times are reals
    that are not negative, the body position is a real within 0.001 of
    [-3.2, 3.2], and the root group stands at the same [x].  The reals
    keep it in [-3.2, 3.2] itself; the margin is there for the rounding of
    the smoothing step, which can end an ulp beyond the bound
    ([lerp_rounds_past_target]). *)
Theorem body_stays_on_stage :
  forall l : list FrameInput,
    Forall plainFrame l ->
    exists p : R,
      vx (bodyPosition (runFrames initialState l)) = Fin p /\
      (-3.2 - 0.001 <= p <= 3.2 + 0.001)%R /\
      vx (groupPosition (runFrames initialState l)) = Fin p.
Proof.
  intros l Hl.
  destruct (runFrames_bodyOnStage l initialState Hl initialState_bodyOnStage)
    as [_ [p [Hp [Hr Hg]]]].
  exists p. repeat split; trivial; lra.
Qed.

Lemma body_stays_on_stage_witness :
  let i := mkInput (mkProps (Some (vec 3.9 1.5 (-1.8))) WRITING None)
                   (Fin 0) (Fin 0.05) shoulderAtMount in
  Forall plainFrame [i; i] /\
  exists p : R,
    vx (bodyPosition (runFrames initialState [i; i])) = Fin p /\
    (-3.2 - 0.001 <= p <= 3.2 + 0.001)%R /\
    vx (groupPosition (runFrames initialState [i; i])) = Fin p.
Proof.
  intros i.
  assert (Hi : plainFrame i).
  { split; [reflexivity |]. exists 0.05%R. split; [reflexivity | lra]. }
  assert (Hl : Forall plainFrame [i; i]).
  { apply Forall_cons; [exact Hi |]. apply Forall_cons; [exact Hi |].
    apply Forall_nil. }
  split; [exact Hl |].
  apply (body_stays_on_stage [i; i] Hl).
Defined.

(** ** Steps settle *)

(** Decide the comparisons of reals in a hypothesis as well. *)
Ltac js_cases_in H :=
  repeat match type of H with
  | context [Rlt_dec ?a ?b] => destruct (Rlt_dec a b); try lra
  | context [Rle_dec ?a ?b] => destruct (Rle_dec a b); try lra
  | context [Rcase_abs ?a] => destruct (Rcase_abs a); try lra
  end.

(** The dead-zone test cannot hold a target and then let it go once it is
    clamped, unless the clamp of the ideal is where it already stands. *)
Lemma gtb_Fin_inv (a b : R) :
  ((Fin a >? Fin b) = true -> (b < a)%R) /\
  ((Fin a >? Fin b) = false -> (a <= b)%R).
Proof.
  unfold gtb, ltb. destruct (Rlt_dec b a); split; intros H;
    try discriminate; lra.
Qed.

Lemma writing_settles (ideal b : number) :
  (Math_abs (ideal - b) >? Fin 0.8) = false ->
  (Math_abs (ideal - clampStage b) >? Fin 0.8) = true ->
  clampStage ideal = clampStage b.
Proof.
  destruct ideal as [i | | |], b as [r | | |].
  2-16: cbn; intros H1 H2;
    try discriminate; try reflexivity;
    try (js_cases_in H1; discriminate);
    try (js_cases_in H2; discriminate).
  rewrite !clampStage_Fin, !sub_Fin, !Math_abs_Fin.
  intros H1 H2. apply gtb_Fin_inv in H1, H2. f_equal.
  unfold Rmax, Rmin in *.
  destruct (Rle_dec 3.2 r), (Rle_dec 3.2 i);
    repeat match goal with
    | |- context [Rle_dec ?a ?b] => destruct (Rle_dec a b)
    | H : context [Rle_dec ?a ?b] |- _ => destruct (Rle_dec a b)
    end;
    unfold Rabs in *;
    repeat match goal with
    | H : context [Rcase_abs ?a] |- _ => destruct (Rcase_abs a)
    end; lra.
Qed.

Lemma deadzone_settles (ideal b : number) :
  let step b := if Math_abs (ideal - b) >? Fin 0.8 then ideal else b in
  clampStage (step (clampStage (step b))) = clampStage (step b).
Proof.
  cbv beta zeta.
  destruct (Math_abs (ideal - b) >? Fin 0.8) eqn:H1.
  - destruct (Math_abs (ideal - clampStage ideal) >? Fin 0.8);
      [reflexivity | apply clampStage_idempotent].
  - destruct (Math_abs (ideal - clampStage b) >? Fin 0.8) eqn:H2;
      [| apply clampStage_idempotent].
    now apply writing_settles.
Qed.

Lemma locomotion_settles props (b : number) :
  clampStage (locomotion props (clampStage (locomotion props b)))
  = clampStage (locomotion props b).
Proof.
  destruct props as [t st look]. unfold locomotion.
  cbn [targetPosition state lookAtTarget].
  destruct t as [t |]; [| destruct look as [l |]];
    destruct st; try apply clampStage_idempotent; try reflexivity.
  apply (deadzone_settles (vx t - Fin 0.4) b).
Qed.

(** X2.  A step is taken once: a second frame with the same props leaves
    the body target where the first frame put it, whatever the state before
    and whatever the clock, frame times and shoulder of the two frames. *)
Theorem second_frame_keeps_body_target :
  forall props time1 delta1 shoulder1 time2 delta2 shoulder2 s,
    let s1 := next (useFrame props time1 delta1 shoulder1 s) in
    bodyTargetX (next (useFrame props time2 delta2 shoulder2 s1))
    = bodyTargetX s1.
Proof.
  intros. subst s1. rewrite !bodyTargetX_next. apply locomotion_settles.
Qed.

(** ** No directive *)

Lemma locomotion_no_directive (i : FrameInput) (b : number) :
  noBodyDirective i -> locomotion (inProps i) b = b.
Proof.
  destruct i as [[t st look] time delta sh]. unfold noBodyDirective. cbn.
  intros [Ht Hl]. subst t. unfold locomotion.
  cbn [targetPosition lookAtTarget state].
  destruct look as [l |]; [| reflexivity].
  destruct st; try reflexivity.
  destruct Hl as [Hl | Hl]; [discriminate | contradiction].
Qed.

Lemma runFrames_no_directive (l : list FrameInput) :
  forall s : AnimatorState,
    clampStage (bodyTargetX s) = bodyTargetX s ->
    Forall noBodyDirective l ->
    bodyTargetX (runFrames s l) = bodyTargetX s.
Proof.
  induction l as [| i l IH]; intros s Hs Hl.
  - reflexivity.
  - inversion Hl as [| i' l' Hi Hl']; subst.
    change (bodyTargetX (runFrames (frame s i) l) = bodyTargetX s).
    assert (Hf : bodyTargetX (frame s i) = bodyTargetX s).
    { unfold frame.
      now rewrite bodyTargetX_next, (locomotion_no_directive i _ Hi). }
    rewrite IH; trivial. now rewrite Hf.
Qed.

Lemma reachable_clamped (l : list FrameInput) :
  clampStage (bodyTargetX (runFrames initialState l))
  = bodyTargetX (runFrames initialState l).
Proof.
  destruct (reachable_bodyTargetX l) as [H | [r [H Hr]]]; rewrite H.
  - reflexivity.
  - now apply clampStage_inside.
Qed.

(** X3.  Without a directive the body stays where it is: from any state
    reached from mount, frames with no hand target and with a gaze target
    only outside [IDLE] leave the body target unchanged, however many they
    are. *)
Theorem no_directive_keeps_body_target :
  forall l0 l : list FrameInput,
    Forall noBodyDirective l ->
    bodyTargetX (runFrames (runFrames initialState l0) l)
    = bodyTargetX (runFrames initialState l0).
Proof.
  intros l0 l Hl. apply runFrames_no_directive; trivial.
  apply reachable_clamped.
Qed.

Lemma no_directive_keeps_body_target_witness :
  let step := mkInput (mkProps (Some (vec 2 1.5 (-1.8))) WRITING None)
                      (Fin 0) (Fin 0.016) shoulderAtMount in
  let idle := mkInput (mkProps None WALKING (Some (vec 3 1 0)))
                      (Fin 0.016) (Fin 0.016) shoulderAtMount in
  Forall noBodyDirective [idle; idle] /\
  bodyTargetX (runFrames (runFrames initialState [step]) [idle; idle])
  = bodyTargetX (runFrames initialState [step]).
Proof.
  intros step idle.
  assert (Hi : noBodyDirective idle).
  { split; [reflexivity |]. right. discriminate. }
  assert (Hl : Forall noBodyDirective [idle; idle]).
  { apply Forall_cons; [exact Hi |]. apply Forall_cons; [exact Hi |].
    apply Forall_nil. }
  split; [exact Hl |].
  apply (no_directive_keeps_body_target [step] [idle; idle] Hl).
Defined.

(** ** Bobbing *)

Lemma dt_mul_Fin (d r : R) : dt (Fin d) * Fin r = Fin (Rmin d 0.05 * r).
Proof. unfold dt. now rewrite Math_min_Fin, mul_Fin. Qed.

Lemma Math_sin_Fin (r : R) : Math_sin (Fin r) = Fin (sin r).
Proof. reflexivity. Qed.

Lemma bodyLerpSpeed_Fin props :
  exists r : R, bodyLerpSpeed props = Fin r.
Proof. unfold bodyLerpSpeed. destruct (state_eqb _ _); eexists; reflexivity. Qed.

(** X4.  Outside [WRITING] the spine bobs within 0.055 of its rest height
    1.0: 0.005 of breathing and at most 0.05 of walking, whatever the clock
    and the frame time, as long as the inputs are finite. *)
Theorem spine_bob_bounded :
  forall props (t d : R) shoulderPos s,
    state props <> WRITING ->
    finiteState s = true ->
    finiteTarget (targetPosition props) = true ->
    finiteTarget (lookAtTarget props) = true ->
    exists y : R,
      spinePositionY (next (useFrame props (Fin t) (Fin d) shoulderPos s))
      = Fin y /\
      (Rabs (y - 1) <= 0.055)%R.
Proof.
  intros props t d shoulderPos [hand head bpos bt gpos spine]
    Hst Hs Ht Hl.
  unfold finiteState in Hs.
  cbn [currentHandTarget headLookAt bodyPosition bodyTargetX groupPosition
       spinePositionY] in Hs.
  do 5 (apply andb_prop in Hs as [Hs ?]).
  destruct (isFinite_Fin bt) as [b ->]; trivial.
  destruct (finiteVector_vec bpos) as [p1 [p2 [p3 ->]]]; trivial.
  destruct (locomotion_finite props b Ht Hl) as [r Hr].
  destruct (bodyLerpSpeed_Fin props) as [v Hv].
  assert (Hw : state_eqb (state props) WRITING = false)
    by (destruct (state props); cbn; congruence).
  cbn [next useFrame spinePositionY bodyPosition bodyTargetX vec vx].
  unfold spineY. rewrite Hw, Hr, Hv, clampStage_Fin, dt_mul_Fin, lerp_Fin.
  cbn [negb]. autorewrite with js_fin. rewrite !Math_sin_Fin.
  autorewrite with js_fin.
  eexists. split; [reflexivity |].
  match goal with
  | |- context [Rmin ?speed 0.05] =>
      assert (Hm : (0 <= Rmin speed 0.05 <= 0.05)%R)
  end.
  { split; [apply Rmin_glb; [| lra] | apply Rmin_r].
    apply Rmult_le_pos; [apply Rabs_pos | lra]. }
  pose proof (SIN_bound (t * 12)) as [Hs1 Hs2].
  pose proof (SIN_bound (t * 1.5)) as [Hs3 Hs4].
  apply Rabs_le. split; nra.
Qed.

Lemma spine_bob_bounded_witness :
  let props := mkProps (Some (vec 2 1 1.5)) GRABBING (Some (vec 2 1 1.5)) in
  props.(state) <> WRITING /\
  exists y : R,
    spinePositionY (next (useFrame props (Fin 3) (Fin 0.016) shoulderAtMount
                                   initialState))
    = Fin y /\
    (Rabs (y - 1) <= 0.055)%R.
Proof.
  intros props.
  assert (Hst : props.(state) <> WRITING) by discriminate.
  split; [exact Hst |].
  apply (spine_bob_bounded props 3 0.016 shoulderAtMount initialState Hst);
    reflexivity.
Defined.

(** ** The hand target over many frames *)

Lemma Vector3_lerp_finite (this v : Vector3) (alpha : R) :
  finiteVector this = true ->
  finiteVector v = true ->
  finiteVector (Vector3_lerp this v (Fin alpha)) = true.
Proof.
  intros Hthis Hv.
  destruct (finiteVector_vec this Hthis) as [a [b [c ->]]].
  destruct (finiteVector_vec v Hv) as [a' [b' [c' ->]]].
  now rewrite Vector3_lerp_vec.
Qed.

Lemma handLerpSpeed_state (p q : AvatarProps) :
  state p = state q -> handLerpSpeed p = handLerpSpeed q.
Proof. unfold handLerpSpeed. now intros ->. Qed.

Lemma handLerpSpeed_Fin props :
  exists rate : R, handLerpSpeed props = Fin rate /\ (6 <= rate <= 50)%R.
Proof.
  unfold handLerpSpeed.
  destruct (state_eqb _ WRITING); [| destruct (state_eqb _ GRABBING)];
    eexists; (split; [reflexivity | lra]).
Qed.

(** In a frame that tracks [t] outside [THINKING] the smoothed hand target
    takes one step of [Vector3.lerp] towards [t]. *)
Lemma frame_tracks_hand (t : Vector3) (st : AvatarState) (d rate : R)
    (i : FrameInput) (s : AnimatorState) :
  st <> THINKING ->
  tracksHand t st d i ->
  handLerpSpeed (mkProps (Some t) st None) = Fin rate ->
  currentHandTarget (frame s i)
  = Vector3_lerp (currentHandTarget s) t (Fin (Rmin d 0.05 * rate)).
Proof.
  intros Hst [Ht [Hs Hd]] Hrate.
  unfold frame. cbn [next useFrame currentHandTarget].
  rewrite (handLerpSpeed_state (inProps i) (mkProps (Some t) st None))
    by (now rewrite Hs).
  rewrite Hd, Hrate, dt_mul_Fin. f_equal.
  unfold activePos. rewrite Ht, Hs.
  destruct st; cbn; congruence.
Qed.

Lemma tracked_hand_distance (t : Vector3) (st : AvatarState) (d rate : R) :
  st <> THINKING ->
  finiteVector t = true ->
  handLerpSpeed (mkProps (Some t) st None) = Fin rate ->
  forall (l : list FrameInput) (s : AnimatorState) (d0 : R),
    finiteVector (currentHandTarget s) = true ->
    distanceTo (currentHandTarget s) t = Fin d0 ->
    Forall (tracksHand t st d) l ->
    distanceTo (currentHandTarget (runFrames s l)) t
    = Fin (Rabs (1 - Rmin d 0.05 * rate) ^ List.length l * d0).
Proof.
  intros Hst Ht Hrate l.
  induction l as [| i l IH]; intros s d0 Hs Hd0 Hl.
  - cbn. rewrite Hd0. f_equal. lra.
  - inversion Hl as [| i' l' Hi Hl']; subst.
    change (runFrames s (i :: l)) with (runFrames (frame s i) l).
    pose proof (frame_tracks_hand t st d rate i s Hst Hi Hrate) as Hf.
    destruct (Vector3_lerp_distance (currentHandTarget s) t
                (Rmin d 0.05 * rate) Hs Ht) as [d0' [Hd0' [_ Hd1]]].
    rewrite Hd0 in Hd0'. injection Hd0' as <-.
    rewrite (IH (frame s i) (Rabs (1 - Rmin d 0.05 * rate) * d0)%R).
    + f_equal. cbn [List.length pow]. ring.
    + rewrite Hf. now apply Vector3_lerp_finite.
    + now rewrite Hf.
    + exact Hl'.
Qed.

Lemma boundedVector_finite (m : R) (v : Vector3) :
  boundedVector m v -> finiteVector v = true.
Proof. intros [a [b [c [-> _]]]]. reflexivity. Qed.

(** X5.  The law of the smoothed hand target, where the smoothing
    contracts.  Over frames that keep the hand target [t], the state (other
    than [THINKING]) and the frame time [d >= 0], with [d <= 0.02] while
    writing so that the factor [dt * speed] is at most 1, each frame
    multiplies the distance to [t] by [1 - dt * speed]: after [n] frames it
    is [|1 - min(d, 0.05) * speed|^n] times the initial distance, whatever
    the clock, the shoulder and the gaze target.  The coordinates are taken
    of absolute value at most a million, far from overflow; the equality is
    that of the reals, which the rounded arithmetic follows to its last
    digits. *)
Theorem hand_distance_after_frames :
  forall (t : Vector3) (st : AvatarState) (d : R) (l : list FrameInput)
         (s : AnimatorState),
    st <> THINKING ->
    (0 <= d)%R ->
    (st = WRITING -> (d <= 0.02)%R) ->
    boundedVector 1000000 t ->
    boundedVector 1000000 (currentHandTarget s) ->
    Forall (tracksHand t st d) l ->
    exists rate d0 : R,
      handLerpSpeed (mkProps (Some t) st None) = Fin rate /\
      (0 <= Rmin d 0.05 * rate <= 1)%R /\
      distanceTo (currentHandTarget s) t = Fin d0 /\
      distanceTo (currentHandTarget (runFrames s l)) t
      = Fin (Rabs (1 - Rmin d 0.05 * rate) ^ List.length l * d0).
Proof.
  intros t st d l s Hst Hd Hw Ht Hs Hl.
  apply boundedVector_finite in Ht. apply boundedVector_finite in Hs.
  destruct (Rmin_dt_bounds d Hd) as [Hm Hle].
  assert (Hrate : exists rate : R,
             handLerpSpeed (mkProps (Some t) st None) = Fin rate /\
             (0 <= Rmin d 0.05 * rate <= 1)%R).
  { unfold handLerpSpeed. cbn [state].
    destruct st; cbn [state_eqb]; eexists; (split; [reflexivity |]);
      try lra.
    specialize (Hw eq_refl). lra. }
  destruct Hrate as [rate [Hr Hf]].
  destruct (distanceTo_finite (currentHandTarget s) t Hs Ht) as [d0 [Hd0 _]].
  exists rate, d0. repeat split; trivial; try lra.
  now apply tracked_hand_distance with (st := st).
Qed.

Lemma hand_distance_after_frames_witness :
  let t := vec 2 1.5 (-1.8) in
  let i := mkInput (mkProps (Some t) WRITING (Some t))
                   (Fin 0) (Fin (1 / 60)) shoulderAtMount in
  (0 <= 1 / 60)%R /\
  (WRITING = WRITING -> (1 / 60 <= 0.02)%R) /\
  boundedVector 1000000 t /\
  boundedVector 1000000 (currentHandTarget initialState) /\
  Forall (tracksHand t WRITING (1 / 60)) [i; i; i] /\
  exists rate d0 : R,
    handLerpSpeed (mkProps (Some t) WRITING None) = Fin rate /\
    (0 <= Rmin (1 / 60) 0.05 * rate <= 1)%R /\
    distanceTo (currentHandTarget initialState) t = Fin d0 /\
    distanceTo (currentHandTarget (runFrames initialState [i; i; i])) t
    = Fin (Rabs (1 - Rmin (1 / 60) 0.05 * rate) ^ 3 * d0).
Proof.
  intros t i.
  assert (Hd : (0 <= 1 / 60)%R) by lra.
  assert (Hw : WRITING = WRITING -> (1 / 60 <= 0.02)%R) by (intros _; lra).
  assert (Hb : forall a b c : R,
             (Rabs a <= 1000000)%R -> (Rabs b <= 1000000)%R ->
             (Rabs c <= 1000000)%R -> boundedVector 1000000 (vec a b c)).
  { intros a b c Ha Hb Hc. exists a, b, c. repeat split; assumption. }
  assert (Ht : boundedVector 1000000 t).
  { apply Hb; unfold Rabs; destruct (Rcase_abs _); lra. }
  assert (Hs : boundedVector 1000000 (currentHandTarget initialState)).
  { apply Hb; unfold Rabs; destruct (Rcase_abs _); lra. }
  assert (Hi : tracksHand t WRITING (1 / 60) i) by (repeat split).
  assert (Hl : Forall (tracksHand t WRITING (1 / 60)) [i; i; i]).
  { repeat (apply Forall_cons; [exact Hi |]). apply Forall_nil. }
  split; [exact Hd |]. split; [exact Hw |]. split; [exact Ht |].
  split; [exact Hs |]. split; [exact Hl |].
  apply (hand_distance_after_frames t WRITING (1 / 60) [i; i; i]
           initialState); trivial.
  discriminate.
Defined.

(** ** The elbow within reach *)

Lemma RcosElbow_within_reach (d : R) :
  (0 <= d <= 1.44)%R ->
  RcosElbow d = ((0.7 * 0.7 + 0.75 * 0.75 - d * d) / (2 * 0.7 * 0.75))%R.
Proof. intros Hd. unfold RcosElbow. now rewrite Rmin_left by lra. Qed.

Lemma RcosElbow_range (d : R) :
  (0.05 <= d <= 1.44)%R -> (-1 <= RcosElbow d <= 1)%R.
Proof.
  intros Hd. rewrite RcosElbow_within_reach by lra.
  assert (Hq : (0.0025 <= d * d <= 2.0736)%R) by nra.
  set (q := (d * d)%R) in *. lra.
Qed.

Lemma Rclamp1_inside (c : R) :
  (-1 <= c <= 1)%R -> Rmax (-1) (Rmin 1 c) = c.
Proof.
  intros Hc. unfold Rmax, Rmin.
  destruct (Rle_dec 1 c); destruct (Rle_dec (-1) _); lra.
Qed.

(** X6.  Within reach the elbow angle is the angle of the triangle of the
    two bones and the distance: for a distance [d] of [0.05, 1.44], the
    angle [a] set on the forearm is in [0, PI] and satisfies the law of
    cosines [d^2 = 0.7^2 + 0.75^2 - 2 * 0.7 * 0.75 * cos a]. *)
Theorem elbow_law_of_cosines :
  forall d : R,
    (0.05 <= d <= 1.44)%R ->
    exists a : R,
      elbowAngle (Fin d) = Fin a /\
      (0 <= a <= PI)%R /\
      (d * d = 0.7 * 0.7 + 0.75 * 0.75 - 2 * 0.7 * 0.75 * cos a)%R.
Proof.
  intros d Hd. pose proof (RcosElbow_range d Hd) as Hc.
  exists (acos (RcosElbow d)).
  rewrite elbowAngle_Fin, (Rclamp1_inside _ Hc).
  split; [reflexivity |]. split; [apply acos_bound |].
  rewrite cos_acos by exact Hc.
  rewrite RcosElbow_within_reach by lra.
  set (q := (d * d)%R). lra.
Qed.

Lemma elbow_law_of_cosines_witness :
  (0.05 <= 1 <= 1.44)%R /\
  exists a : R,
    elbowAngle (Fin 1) = Fin a /\
    (0 <= a <= PI)%R /\
    (1 * 1 = 0.7 * 0.7 + 0.75 * 0.75 - 2 * 0.7 * 0.75 * cos a)%R.
Proof.
  assert (H : (0.05 <= 1 <= 1.44)%R) by lra.
  split; [exact H |]. exact (elbow_law_of_cosines 1 H).
Defined.

(** The arc cosine is 0 only at 1. *)
Lemma acos_eq_0 (c : R) : (-1 <= c <= 1)%R -> acos c = 0%R -> c = 1%R.
Proof.
  intros Hc H. rewrite <- (cos_acos c Hc), H. apply cos_0.
Qed.

(** The arc cosine does not increase. *)
Lemma acos_antitone (c1 c2 : R) :
  (-1 <= c1 <= 1)%R -> (-1 <= c2 <= 1)%R -> (c1 <= c2)%R ->
  (acos c2 <= acos c1)%R.
Proof.
  intros H1 H2 Hle.
  destruct (Rle_or_lt (acos c2) (acos c1)) as [H | H]; [exact H |].
  exfalso.
  pose proof (acos_bound c1) as B1. pose proof (acos_bound c2) as B2.
  assert (Hcos : (cos (acos c2) < cos (acos c1))%R)
    by (apply cos_decreasing_1; lra).
  rewrite !cos_acos in Hcos by assumption. lra.
Qed.

Lemma RcosElbow_antitone (d1 d2 : R) :
  (0 <= d1 <= d2)%R -> (RcosElbow d2 <= RcosElbow d1)%R.
Proof.
  intros Hd. unfold RcosElbow.
  assert (Hm : (0 <= Rmin d1 1.44 <= Rmin d2 1.44)%R).
  { split; [apply Rmin_glb; lra |].
    apply Rmin_glb; [| apply Rmin_r].
    apply Rle_trans with d1; [apply Rmin_l | lra]. }
  assert (Hq : (Rmin d1 1.44 * Rmin d1 1.44 <= Rmin d2 1.44 * Rmin d2 1.44)%R)
    by nra.
  set (q1 := (Rmin d1 1.44 * Rmin d1 1.44)%R) in *.
  set (q2 := (Rmin d2 1.44 * Rmin d2 1.44)%R) in *. lra.
Qed.

Lemma Rclamp1_monotone (c1 c2 : R) :
  (c1 <= c2)%R -> (Rmax (-1) (Rmin 1 c1) <= Rmax (-1) (Rmin 1 c2))%R.
Proof.
  intros H. unfold Rmax, Rmin.
  destruct (Rle_dec 1 c1), (Rle_dec 1 c2);
    repeat match goal with
    | |- context [Rle_dec ?a ?b] => destruct (Rle_dec a b)
    end; lra.
Qed.

(** An angle of 0 is set only for a distance of at most 0.05. *)
Lemma elbowAngle_zero_inv (d : R) :
  (0 <= d)%R -> elbowAngle (Fin d) = Fin 0 -> (d <= 0.05)%R.
Proof.
  intros Hd H. rewrite elbowAngle_Fin in H. injection H as H.
  apply acos_eq_0 in H; [| apply Rclamp1_bounds].
  destruct (Rle_or_lt d 0.05) as [Hle | Hlt]; [exact Hle | exfalso].
  assert (Hc : (RcosElbow d < 1)%R).
  { unfold RcosElbow.
    assert (Hm : (0.05 < Rmin d 1.44)%R) by (apply Rmin_glb_lt; lra).
    assert (Hq : (0.0025 < Rmin d 1.44 * Rmin d 1.44)%R) by nra.
    set (q := (Rmin d 1.44 * Rmin d 1.44)%R) in *. lra. }
  unfold Rmax, Rmin in H.
  destruct (Rle_dec 1 (RcosElbow d)); destruct (Rle_dec (-1) _); lra.
Qed.

(** Right after 0.05 the computed angle is still 0: for the distance
    0.050000000000001 the quotient [cosElbow] rounds to 1 in binary64, and
    the argument of [Math.acos] is 1. *)
Lemma elbow_zero_just_beyond :
  let d := Binary64.literal 50000000000001 1000000000000000 in
  Binary64.gtb d (Binary64.literal 5 100) = true /\
  Binary64.acosArgument d = Binary64.ofZ 1.
Proof. intros d. split; vm_compute; reflexivity. Qed.

(** X7.  The elbow angle is 0 for the distances the two bones cannot make,
    and for no distance that is clearly greater: for a distance [d] with
    [0 <= d <= 0.05], the difference of the bone lengths, the angle set on
    the forearm is 0, and for [d >= 0.0501] it is greater than 0.  In
    between the reals give an angle greater than 0 and the rounded
    arithmetic can give 0 ([elbow_zero_just_beyond]); nothing is said
    there. *)
Theorem elbow_zero_when_too_close :
  forall d : R,
    (0 <= d)%R ->
    ((d <= 0.05)%R -> elbowAngle (Fin d) = Fin 0) /\
    ((0.0501 <= d)%R ->
     exists a : R, elbowAngle (Fin d) = Fin a /\ (0 < a)%R).
Proof.
  intros d Hd. split.
  - intros Hle. rewrite elbowAngle_Fin. f_equal.
    assert (Hc : (1 <= RcosElbow d)%R).
    { rewrite RcosElbow_within_reach by lra.
      assert (Hq : (d * d <= 0.0025)%R) by nra.
      set (q := (d * d)%R) in *. lra. }
    replace (Rmax (-1) (Rmin 1 (RcosElbow d))) with 1%R; [apply acos_1 |].
    unfold Rmax, Rmin.
    destruct (Rle_dec 1 (RcosElbow d)); destruct (Rle_dec (-1) _); lra.
  - intros Hge. eexists. split; [apply elbowAngle_Fin |].
    pose proof (acos_bound (Rmax (-1) (Rmin 1 (RcosElbow d)))) as [Hpos _].
    destruct Hpos as [Hpos | Hzero]; [exact Hpos | exfalso].
    assert (H0 : elbowAngle (Fin d) = Fin 0)
      by (rewrite elbowAngle_Fin; now rewrite <- Hzero).
    apply elbowAngle_zero_inv in H0; lra.
Qed.

Lemma elbow_zero_when_too_close_witness :
  (0 <= 0.03)%R /\ (0.03 <= 0.05)%R /\ elbowAngle (Fin 0.03) = Fin 0.
Proof.
  assert (H : (0 <= 0.03)%R) by lra.
  assert (H' : (0.03 <= 0.05)%R) by lra.
  split; [exact H |]. split; [exact H' |].
  exact (proj1 (elbow_zero_when_too_close 0.03 H) H').
Defined.

(** X8.  A farther target opens the elbow angle: for distances
    [0 <= d1 <= d2], the angle set on the forearm for [d1] is at most the
    angle for [d2]. *)
Theorem elbow_angle_monotone :
  forall d1 d2 : R,
    (0 <= d1 <= d2)%R ->
    le_number (elbowAngle (Fin d1)) (elbowAngle (Fin d2)).
Proof.
  intros d1 d2 Hd. rewrite !elbowAngle_Fin.
  eexists _, _. split; [reflexivity |]. split; [reflexivity |].
  apply acos_antitone; try apply Rclamp1_bounds.
  apply Rclamp1_monotone, RcosElbow_antitone, Hd.
Qed.

Lemma elbow_angle_monotone_witness :
  (0 <= 0.5 <= 1.2)%R /\
  le_number (elbowAngle (Fin 0.5)) (elbowAngle (Fin 1.2)).
Proof.
  assert (H : (0 <= 0.5 <= 1.2)%R) by lra.
  split; [exact H |]. exact (elbow_angle_monotone 0.5 1.2 H).
Defined.

(** ** [NaN] on its way to the pose *)

Lemma add_NaN_r (x : number) : x + NaN = NaN.
Proof. destruct x; reflexivity. Qed.

Lemma isNaN_NaN (x : number) : isNaN x = true -> x = NaN.
Proof. destruct x; try discriminate; reflexivity. Qed.

Lemma Vector3_length_NaN (v : Vector3) :
  hasNaN v = true -> Vector3_length v = NaN.
Proof.
  destruct v as [x y z]. unfold hasNaN, Vector3_length. cbn [vx vy vz].
  intros H. apply orb_true_iff in H as [H | H];
    [apply orb_true_iff in H as [H | H] |];
    apply isNaN_NaN in H; subst.
  - reflexivity.
  - cbn [mul]. now rewrite add_NaN_r.
  - cbn [mul]. now rewrite add_NaN_r.
Qed.

Lemma subVectors_NaN (a b : Vector3) :
  hasNaN a = true \/ hasNaN b = true -> hasNaN (subVectors a b) = true.
Proof.
  destruct a as [ax ay az], b as [bx b_y bz].
  unfold hasNaN, subVectors. cbn [vx vy vz].
  intros [H | H]; apply orb_true_iff in H as [H | H];
    try (apply orb_true_iff in H as [H | H]);
    apply isNaN_NaN in H; subst; unfold sub; cbn [neg];
    rewrite ?add_NaN_r; cbn; rewrite ?orb_true_r; reflexivity.
Qed.

Lemma Vector3_lerp_NaN (this v : Vector3) (alpha : number) :
  hasNaN v = true -> hasNaN (Vector3_lerp this v alpha) = true.
Proof.
  destruct this as [x y z], v as [x' y' z'].
  unfold hasNaN, Vector3_lerp. cbn [vx vy vz].
  intros H. apply orb_true_iff in H as [H | H];
    [apply orb_true_iff in H as [H | H] |];
    apply isNaN_NaN in H; subst; cbn [sub add mul];
    rewrite add_NaN_r; cbn; rewrite ?orb_true_r; reflexivity.
Qed.

(** C2 fails as stated.  A finite smoothed hand target does not make the
    angle a number of [0, PI]: the distance is taken to the shoulder, whose
    world position [localToWorld] computes from the rotation of the spine.
    A gaze target with [NaN] as its [z], in [IDLE] and without a hand
    target, makes [Math.atan2] and with it the yaw of the spine [NaN] in
    one frame, while the body and the hand are not touched by it.  In a
    frame whose shoulder position is [NaN] for that reason the smoothed
    hand target is finite, the distance is [NaN], [Math.min] and
    [Math.max] hand it on to [Math.acos], and the rotation set on the
    forearm is [NaN]. *)
Lemma elbow_angle_not_a_number :
  let gaze := mkVector3 (Fin 0) (Fin 1.5) NaN in
  let idle := mkProps None IDLE (Some gaze) in
  let localLook := mkVector3 (Fin 0) (Fin 3.5) NaN in
  let shoulder := mkVector3 NaN NaN NaN in
  let f := useFrame idle (Fin 0) (Fin 0.016) shoulder initialState in
  bodyRotationY
    (bodyMechanics idle (Fin 0.016) (Fin 1) localLook initialPosture) = NaN /\
  finiteVector (currentHandTarget (next f)) = true /\
  acosArgument (distanceTo (currentHandTarget (next f)) shoulder) = NaN /\
  foreArmRotationX f = NaN /\
  ~ (exists a : R, foreArmRotationX f = Fin a /\ (0 <= a <= PI)%R).
Proof.
  intros gaze idle localLook shoulder f.
  assert (Hd : distanceTo (currentHandTarget (next f)) shoulder = NaN).
  { unfold distanceTo. apply Vector3_length_NaN, subVectors_NaN.
    right. reflexivity. }
  assert (Hf : foreArmRotationX f = NaN).
  { change (foreArmRotationX f)
      with (elbowAngle (distanceTo (currentHandTarget (next f)) shoulder)).
    rewrite Hd. reflexivity. }
  split; [| split; [| split; [| split]]].
  - subst idle localLook gaze. unfold bodyMechanics, lerp, dt.
    rewrite Math_min_Fin. reflexivity.
  - subst f idle gaze.
    cbn [next useFrame currentHandTarget locomotion targetPosition
         lookAtTarget state vx bodyTargetX bodyPosition initialState vec].
    unfold dt, bodyLerpSpeed, handLerpSpeed. cbn [state state_eqb].
    rewrite Math_min_Fin, !mul_Fin, clampStage_Fin, lerp_Fin. reflexivity.
  - rewrite Hd. reflexivity.
  - exact Hf.
  - intros [a [Ha _]]. rewrite Hf in Ha. discriminate.
Qed.

(** X9.  The clamps before the arc cosine do not stop [NaN]: a frame whose
    shoulder position has a [NaN] coordinate, or whose hand target has one
    outside [THINKING], sets [NaN] as the rotation of the forearm. *)
Theorem NaN_reaches_forearm :
  forall (st : AvatarState) (t : Vector3) look time delta shoulderPos s,
    hasNaN shoulderPos = true \/ (st <> THINKING /\ hasNaN t = true) ->
    foreArmRotationX
      (useFrame (mkProps (Some t) st look) time delta shoulderPos s)
    = NaN.
Proof.
  intros st t look time delta shoulderPos s H.
  cbn [useFrame foreArmRotationX].
  rewrite Vector3_length_NaN; [reflexivity |].
  apply subVectors_NaN.
  destruct H as [H | [Hst H]]; [now right | left].
  apply Vector3_lerp_NaN. unfold activePos. cbn [state targetPosition].
  destruct st; cbn; congruence.
Qed.

Lemma NaN_reaches_forearm_witness :
  let t := mkVector3 (Fin 2) NaN (Fin (-1.8)) in
  (hasNaN shoulderAtMount = true \/
   (WRITING <> THINKING /\ hasNaN t = true)) /\
  foreArmRotationX
    (useFrame (mkProps (Some t) WRITING None) (Fin 0) (Fin 0.016)
              shoulderAtMount initialState)
  = NaN.
Proof.
  intros t.
  assert (H : hasNaN shoulderAtMount = true \/
              (WRITING <> THINKING /\ hasNaN t = true)).
  { right. split; [discriminate | reflexivity]. }
  split; [exact H |].
  exact (NaN_reaches_forearm WRITING t None (Fin 0) (Fin 0.016)
           shoulderAtMount initialState H).
Defined.

(** ** Turning and leaning *)

Lemma Math_atan2_bound (y x : R) :
  exists a : R,
    Math_atan2 (Fin y) (Fin x) = Fin a /\ (- PI <= a <= PI)%R.
Proof.
  pose proof PI_RGT_0 as Hpi.
  pose proof (atan_bound (y / x)) as Ha.
  unfold Math_atan2.
  destruct (Rlt_dec 0 x) as [Hx | Hx].
  - eexists. split; [reflexivity | lra].
  - destruct (Rlt_dec x 0) as [Hx' | Hx'].
    + assert (Hinv : (/ x < 0)%R) by now apply Rinv_lt_0_compat.
      destruct (Rlt_dec y 0) as [Hy | Hy].
      * assert (Hq : (0 < y / x)%R).
        { unfold Rdiv. replace (y * / x)%R with ((- y) * (- / x))%R by ring.
          apply Rmult_lt_0_compat; lra. }
        pose proof (atan_increasing 0 (y / x) Hq) as Hinc.
        rewrite atan_0 in Hinc.
        eexists. split; [reflexivity | lra].
      * assert (Hq : (y / x <= 0)%R).
        { unfold Rdiv. replace (y * / x)%R with (- (y * (- / x)))%R by ring.
          assert (0 <= y * - / x)%R by (apply Rmult_le_pos; lra). lra. }
        assert (Hat : (atan (y / x) <= 0)%R).
        { destruct Hq as [Hq | Hq].
          - pose proof (atan_increasing (y / x) 0 Hq) as Hinc.
            rewrite atan_0 in Hinc. lra.
          - rewrite Hq, atan_0. lra. }
        eexists. split; [reflexivity | lra].
    + destruct (Rlt_dec 0 y); [| destruct (Rlt_dec y 0)];
        eexists; (split; [reflexivity | lra]).
Qed.

Lemma rotation_factor props (d : R) :
  (0 <= d)%R ->
  exists alpha : R,
    dt (Fin d) * rotationSpeed props = Fin alpha /\ (0 <= alpha <= 1)%R.
Proof.
  intros Hd. destruct (Rmin_dt_bounds d Hd) as [Hm _].
  unfold rotationSpeed.
  destruct (state_eqb _ _); rewrite dt_mul_Fin; eexists; split;
    try reflexivity; lra.
Qed.

Lemma postureFrame_yaw (i : PostureInput) (m : Posture) (y : R) :
  plainPosture i ->
  bodyRotationY m = Fin y ->
  (- (0.7 * PI) <= y <= 0.7 * PI)%R ->
  exists y' : R,
    bodyRotationY (postureFrame m i) = Fin y' /\
    (- (0.7 * PI) <= y' <= 0.7 * PI)%R.
Proof.
  intros [Hl [d [Hd Hd0]]] Hy Hyr.
  pose proof PI_RGT_0 as Hpi.
  destruct (finiteVector_vec _ Hl) as [lx [ly [lz Hlook]]].
  destruct (Rmin_dt_bounds d Hd0) as [Hm _].
  unfold postureFrame, bodyMechanics. rewrite Hd, Hy, Hlook.
  destruct (hasFocus (poProps i)); cbn [bodyRotationY vec vx vz].
  - destruct (Math_atan2_bound lx lz) as [a [Ha Har]].
    destruct (rotation_factor (poProps i) d Hd0) as [alpha [Hal Halr]].
    rewrite Ha, Hal, mul_Fin, lerp_Fin.
    eexists. split; [reflexivity |].
    apply lerp_between; lra.
  - rewrite dt_mul_Fin, lerp_Fin.
    eexists. split; [reflexivity |].
    apply lerp_between; lra.
Qed.

Lemma runPosture_yaw (l : list PostureInput) :
  Forall plainPosture l ->
  exists y : R,
    bodyRotationY (runPosture initialPosture l) = Fin y /\
    (- (0.7 * PI) <= y <= 0.7 * PI)%R.
Proof.
  intros Hl.
  assert (H0 : exists y : R,
             bodyRotationY initialPosture = Fin y /\
             (- (0.7 * PI) <= y <= 0.7 * PI)%R).
  { pose proof PI_RGT_0. exists 0%R. split; [reflexivity | lra]. }
  revert H0. generalize initialPosture as m.
  induction Hl as [| i l Hi Hl IH]; intros m [y [Hy Hyr]].
  - now exists y.
  - change (runPosture m (i :: l)) with (runPosture (postureFrame m i) l).
    apply IH. now apply postureFrame_yaw with (y := y).
Qed.

(** X10.  The spine does not turn by more than [0.7 * PI] either way: from
    mount, after any frames whose point of interest is finite and whose
    frame times are reals that are not negative, the yaw is a real within
    0.001 of [-0.7 PI, 0.7 PI].  The reals keep it in [-0.7 PI, 0.7 PI]
    itself; the margin is there for the rounding of the smoothing step and
    of [Math.atan2], as for the body position
    ([lerp_rounds_past_target]). *)
Theorem yaw_bounded :
  forall l : list PostureInput,
    Forall plainPosture l ->
    exists y : R,
      bodyRotationY (runPosture initialPosture l) = Fin y /\
      (- (0.7 * PI) - 0.001 <= y <= 0.7 * PI + 0.001)%R.
Proof.
  intros l Hl. destruct (runPosture_yaw l Hl) as [y [Hy Hr]].
  exists y. split; [exact Hy | lra].
Qed.

Lemma yaw_bounded_witness :
  let i := mkPostureInput (mkProps (Some (vec 2 1.5 (-1.8))) WRITING None)
                          (Fin 0.016) (Fin 2) (vec (-3) 1.5 (-1.8)) in
  Forall plainPosture [i; i] /\
  exists y : R,
    bodyRotationY (runPosture initialPosture [i; i]) = Fin y /\
    (- (0.7 * PI) - 0.001 <= y <= 0.7 * PI + 0.001)%R.
Proof.
  intros i.
  assert (Hi : plainPosture i).
  { split; [reflexivity |]. exists 0.016%R. split; [reflexivity | lra]. }
  assert (Hl : Forall plainPosture [i; i]).
  { repeat (apply Forall_cons; [exact Hi |]). apply Forall_nil. }
  split; [exact Hl |]. exact (yaw_bounded [i; i] Hl).
Defined.

Lemma postureFrame_atRest (d y : R) (lean : Vector3) (i : PostureInput) :
  atRest d i ->
  postureFrame (mkPosture (Fin y) lean) i
  = mkPosture (Fin ((1 - Rmin d 0.05 * 3) * y)) (vec 0 0 0).
Proof.
  intros [Ht [Hl Hd]]. unfold postureFrame, bodyMechanics, hasFocus.
  rewrite Ht, Hl, Hd. cbn [bodyRotationY].
  rewrite dt_mul_Fin, lerp_Fin. do 2 f_equal. ring.
Qed.

(** X11.  At rest the lean snaps to zero and the yaw decays: over [n >= 1]
    frames with neither target and the frame time [d], the lean is
    [(0, 0, 0)] and the yaw is [(1 - 3 * min(d, 0.05))^n] times what it was,
    whatever the state. *)
Theorem posture_at_rest :
  forall (d y : R) (lean : Vector3) (i : PostureInput)
         (l : list PostureInput),
    Forall (atRest d) (i :: l) ->
    runPosture (mkPosture (Fin y) lean) (i :: l)
    = mkPosture (Fin ((1 - Rmin d 0.05 * 3) ^ List.length (i :: l) * y))
                (vec 0 0 0).
Proof.
  intros d y lean i l Hl.
  inversion Hl as [| i' l' Hi Hl']; subst. clear Hl.
  change (runPosture (mkPosture (Fin y) lean) (i :: l))
    with (runPosture (postureFrame (mkPosture (Fin y) lean) i) l).
  rewrite (postureFrame_atRest d y lean i Hi).
  cbn [List.length].
  replace ((1 - Rmin d 0.05 * 3) ^ S (List.length l) * y)%R
    with ((1 - Rmin d 0.05 * 3) ^ List.length l
          * ((1 - Rmin d 0.05 * 3) * y))%R by (cbn [pow]; ring).
  generalize ((1 - Rmin d 0.05 * 3) * y)%R as y1.
  induction Hl' as [| j l Hj Hl' IH]; intros y1.
  - cbn [runPosture fold_left List.length pow]. do 2 f_equal. lra.
  - change (runPosture (mkPosture (Fin y1) (vec 0 0 0)) (j :: l))
      with (runPosture (postureFrame (mkPosture (Fin y1) (vec 0 0 0)) j) l).
    rewrite (postureFrame_atRest d y1 (vec 0 0 0) j Hj), IH.
    do 2 f_equal. cbn [List.length pow]. ring.
Qed.

Lemma posture_at_rest_witness :
  let i := mkPostureInput (mkProps None IDLE None) (Fin 0.02) (Fin 1)
                          (vec 0 0 0) in
  Forall (atRest 0.02) [i; i] /\
  runPosture (mkPosture (Fin 1) (vec 0.1 0 0.2)) [i; i]
  = mkPosture (Fin ((1 - Rmin 0.02 0.05 * 3) ^ 2 * 1)) (vec 0 0 0).
Proof.
  intros i.
  assert (Hi : atRest 0.02 i) by (repeat split).
  assert (Hl : Forall (atRest 0.02) [i; i]).
  { repeat (apply Forall_cons; [exact Hi |]). apply Forall_nil. }
  split; [exact Hl |].
  exact (posture_at_rest 0.02 1 (vec 0.1 0 0.2) i [i] Hl).
Defined.

(** * The application *)

(** ** Comparisons *)

Lemma leb_Fin (a b : R) : (Fin a <=? Fin b) = true <-> (a <= b)%R.
Proof.
  unfold leb. destruct (Rle_dec a b); split; intros H;
    try reflexivity; try discriminate; lra.
Qed.

Lemma geb_Fin (a b : R) : (Fin a >=? Fin b) = true <-> (b <= a)%R.
Proof. unfold geb. apply leb_Fin. Qed.

(** A number between two reals is a real. *)
Lemma between_Fin (u : number) (a b : R) :
  (u >=? Fin a) && (u <=? Fin b) = true ->
  exists r : R, u = Fin r /\ (a <= r <= b)%R.
Proof.
  intros H. apply andb_prop in H as [H1 H2].
  destruct u as [r | | |]; try discriminate.
  exists r. split; [reflexivity |].
  apply geb_Fin in H1. apply leb_Fin in H2. lra.
Qed.

Lemma mapWorldToUV_vec (x y z : R) :
  App.mapWorldToUV (vec x y z) = (Fin ((x + 4) / 8), Fin ((y + 2) / 4)).
Proof.
  unfold App.mapWorldToUV, vec. cbn [vx vy].
  now rewrite !add_Fin, !div_Fin by lra.
Qed.

Lemma onBoard_vec (x y z : R) :
  onBoard (vec x y z) = true <-> (-4 <= x <= 4)%R /\ (-2 <= y <= 2)%R.
Proof.
  unfold onBoard. rewrite mapWorldToUV_vec.
  rewrite !andb_true_iff, !geb_Fin, !leb_Fin. lra.
Qed.

(** ** Starting a stroke *)

Lemma onBoardPointerDown_cases (point : Vector3) (s : App.State) :
  App.onBoardPointerDown point s
  = if onBoard point then
      App.setCurrentStroke
        (Some (mkStroke [uvPoint point] "white"))
        (App.setLookAtTarget (Some point)
           (App.setIkTarget (Some (withZ point (Fin (-1.8))))
              (App.setAvatarState WRITING (App.setOrbitEnabled false s))))
    else App.setOrbitEnabled false s.
Proof.
  unfold App.onBoardPointerDown, onBoard, uvPoint.
  destruct (App.mapWorldToUV point) as [u v]. reflexivity.
Qed.

(** Right after the edge a pointer is still on the board: for
    [x = 4.000000000000001] the sum [x + 4] rounds to 8 in binary64, [u] is
    1 and the test of [onBoardPointerDown] passes. *)
Lemma board_edge_rounds_onto_board :
  let point :=
    Binary64.mkVector3 (Binary64.literal 4000000000000001 1000000000000000)
                       (Binary64.ofZ 0)
                       (Binary64.neg (Binary64.ofZ 2)) in
  Binary64.gtb (Binary64.x point) (Binary64.ofZ 4) = true /\
  fst (Binary64.mapWorldToUV point) = Binary64.ofZ 1 /\
  Binary64.onBoard point = true.
Proof. intros point. repeat split; vm_compute; reflexivity. Qed.

(** X12.  A stroke starts on the board and nowhere clearly off it.  For a
    pointer-down at a real point [(x, y, z)]: if [-4 <= x <= 4] and
    [-2 <= y <= 2], the avatar starts writing, its hand target is
    [(x, y, -1.8)], it looks at the point, and the current stroke is the
    single point [((x + 4) / 8, (y + 2) / 4, 0)]; if [x] or [y] is off
    that range by more than 0.001, nothing changes but the orbit control,
    which is switched off in both cases.  Within 0.001 outside the edge the
    reals start no stroke and the rounded arithmetic can start one
    ([board_edge_rounds_onto_board]); nothing is said there. *)
Theorem pointer_down_starts_stroke_on_board :
  forall (x y z : R) (s : App.State),
    let s' := App.onBoardPointerDown (vec x y z) s in
    App.orbitEnabled s' = false /\
    ((-4 <= x <= 4)%R /\ (-2 <= y <= 2)%R ->
     App.avatarState s' = WRITING /\
     App.ikTarget s' = Some (vec x y (-1.8)) /\
     App.lookAtTarget s' = Some (vec x y z) /\
     App.currentStroke s'
     = Some (mkStroke [mkPoint (Fin ((x + 4) / 8)) (Fin ((y + 2) / 4)) (Fin 0)]
                      "white") /\
     App.strokes s' = App.strokes s) /\
    ((x < -4.001)%R \/ (4.001 < x)%R \/ (y < -2.001)%R \/ (2.001 < y)%R ->
     s' = App.setOrbitEnabled false s).
Proof.
  intros x y z s s'. subst s'. rewrite onBoardPointerDown_cases.
  pose proof (onBoard_vec x y z) as Hb.
  destruct (onBoard (vec x y z)).
  - split; [reflexivity |]. split.
    + intros _. unfold uvPoint. rewrite mapWorldToUV_vec.
      repeat split; reflexivity.
    + intros Hn. exfalso.
      assert (Hin : (-4 <= x <= 4)%R /\ (-2 <= y <= 2)%R) by now apply Hb.
      lra.
  - split; [reflexivity |]. split.
    + intros H. apply Hb in H. discriminate.
    + reflexivity.
Qed.

Lemma pointer_down_starts_stroke_on_board_witness :
  let s' := App.onBoardPointerDown (vec 1 0.5 (-2)) App.initial in
  ((-4 <= 1 <= 4)%R /\ (-2 <= 0.5 <= 2)%R) /\
  App.avatarState s' = WRITING /\
  App.ikTarget s' = Some (vec 1 0.5 (-1.8)).
Proof.
  intros s'.
  assert (H : (-4 <= 1 <= 4)%R /\ (-2 <= 0.5 <= 2)%R) by lra.
  split; [exact H |].
  destruct (pointer_down_starts_stroke_on_board 1 0.5 (-2) App.initial)
    as [_ [Hon _]].
  destruct (Hon H) as [H1 [H2 _]]. split; assumption.
Defined.

(** ** Strokes *)

Lemma strokesWellFormed_iff (s : App.State) :
  strokesWellFormed s <->
  Forall wellFormedStroke (App.strokes s) /\
  match App.currentStroke s with
  | Some c => wellFormedStroke c
  | None => True
  end.
Proof.
  unfold strokesWellFormed, App.boardStrokes.
  destruct (App.currentStroke s) as [c |].
  - rewrite Forall_app. split.
    + intros [H1 H2]. split; [exact H1 |]. now inversion H2.
    + intros [H1 H2]. split; [exact H1 |]. now constructor.
  - tauto.
Qed.

Lemma onBoard_pointWithin (point : Vector3) :
  onBoard point = true -> pointWithin 0 (uvPoint point).
Proof.
  unfold onBoard, uvPoint. destruct (App.mapWorldToUV point) as [u v].
  intros H. apply andb_prop in H as [H Hv2]. apply andb_prop in H as [H Hv1].
  destruct (between_Fin u 0 1 H) as [a [-> Ha]].
  destruct (between_Fin v 0 1) as [b [-> Hb]].
  { now rewrite Hv1, Hv2. }
  exists a, b. split; [reflexivity | lra].
Qed.

Lemma nearBoard_pointWithin (point : Vector3) :
  nearBoard point = true -> pointWithin 0.1 (uvPoint point).
Proof.
  unfold nearBoard, uvPoint. destruct (App.mapWorldToUV point) as [u v].
  intros H. apply andb_prop in H as [H Hv2]. apply andb_prop in H as [H Hv1].
  destruct (between_Fin u (-0.1) 1.1 H) as [a [-> Ha]].
  destruct (between_Fin v (-0.1) 1.1) as [b [-> Hb]].
  { now rewrite Hv1, Hv2. }
  exists a, b. split; [reflexivity | lra].
Qed.

Lemma onBoardPointerMove_cases (point : Vector3) (s : App.State) :
  App.onBoardPointerMove point s
  = let s1 := if vz point <? Fin 2
              then App.setLookAtTarget (Some point) s else s in
    match App.avatarState s, App.currentStroke s with
    | WRITING, Some prev =>
        let s2 := App.setIkTarget (Some (withZ point (Fin (-1.8)))) s1 in
        if nearBoard point then
          App.setCurrentStroke
            (Some (mkStroke (points prev ++ [uvPoint point]) (color prev))) s2
        else s2
    | _, _ => s1
    end.
Proof.
  unfold App.onBoardPointerMove, nearBoard, uvPoint.
  destruct (App.mapWorldToUV point) as [u v]. reflexivity.
Qed.

Lemma wellFormedStroke_snoc (c : Stroke) (q : DrawingPoint) :
  wellFormedStroke c -> pointWithin 0.1 q ->
  wellFormedStroke (mkStroke (points c ++ [q]) (color c)).
Proof.
  intros [p [ps [Hc [Hp Hps]]]] Hq. exists p, (ps ++ [q]).
  cbn [points]. rewrite Hc. split; [reflexivity |]. split; [exact Hp |].
  apply Forall_app. split; [exact Hps | now constructor].
Qed.

Lemma pointer_move_strokes (point : Vector3) (s : App.State) :
  App.strokes (App.onBoardPointerMove point s) = App.strokes s /\
  App.currentStroke (App.onBoardPointerMove point s)
  = match App.avatarState s, App.currentStroke s with
    | WRITING, Some prev =>
        if nearBoard point
        then Some (mkStroke (points prev ++ [uvPoint point]) (color prev))
        else Some prev
    | _, c => c
    end.
Proof.
  rewrite onBoardPointerMove_cases. destruct s as [st ik look ss cur th tx ob].
  destruct (nearBoard point), (vz point <? Fin 2), st, cur as [prev |];
    split; reflexivity.
Qed.

Lemma pointer_up_strokes (s : App.State) :
  App.strokes (App.onBoardPointerUp s)
  = match App.avatarState s, App.currentStroke s with
    | WRITING, Some c => App.strokes s ++ [c]
    | _, _ => App.strokes s
    end /\
  App.currentStroke (App.onBoardPointerUp s)
  = match App.avatarState s, App.currentStroke s with
    | WRITING, Some c => None
    | _, c => c
    end.
Proof.
  unfold App.onBoardPointerUp. destruct s as [st ik look ss cur th tx ob].
  cbn. destruct st, cur as [c |], (App.noText tx); split; reflexivity.
Qed.

Lemma handle_strokesWellFormed (e : App.Event) (s : App.State) :
  strokesWellFormed s -> strokesWellFormed (App.handle s e).
Proof.
  rewrite !strokesWellFormed_iff. intros [Hs Hc].
  destruct e as [point | point | | pos | pos | pos | | | | txt | |];
    cbn [App.handle].
  - rewrite onBoardPointerDown_cases.
    destruct (onBoard point) eqn:Hb; cbn; split; trivial.
    exists (uvPoint point), []. repeat split; trivial.
    now apply onBoard_pointWithin.
  - destruct (pointer_move_strokes point s) as [-> ->].
    split; [exact Hs |].
    destruct (App.avatarState s), (App.currentStroke s) as [prev |]; trivial.
    destruct (nearBoard point) eqn:Hb; trivial.
    apply wellFormedStroke_snoc; trivial.
    now apply nearBoard_pointWithin.
  - destruct (pointer_up_strokes s) as [-> ->].
    destruct (App.avatarState s), (App.currentStroke s) as [c |];
      split; trivial.
    apply Forall_app. split; trivial. now constructor.
  - unfold App.handleAIWritePos.
    destruct (negb _); cbn; split; trivial.
  - cbn. split; trivial.
  - cbn. split; trivial.
  - cbn. split; trivial.
  - cbn. split; [constructor | trivial].
  - cbn. split; trivial.
  - cbn. split; trivial.
  - cbn. split; trivial.
  - cbn. split; trivial.
Qed.

Lemma run_strokesWellFormed (l : list App.Event) :
  forall s : App.State,
    strokesWellFormed s -> strokesWellFormed (App.run s l).
Proof.
  unfold App.run. induction l as [| e l IH]; intros s Hs.
  - exact Hs.
  - cbn [fold_left]. apply IH. now apply handle_strokesWellFormed.
Qed.

(** X13.  Every stroke the application holds is well formed: from the
    initial state, after any events, each stroke given to the blackboard
    (the finished ones and the one being drawn) has a first point in the
    unit square and all its other points within a tenth around it, with
    real coordinates and [z = 0]; in particular none is empty, and a
    pointer at a [NaN] or infinite point adds nothing. *)
Theorem strokes_stay_well_formed :
  forall l : list App.Event, strokesWellFormed (App.run App.initial l).
Proof.
  intros l. apply run_strokesWellFormed. constructor.
Qed.

(** ** The avatar's directive *)

Lemma pointer_move_directive (point : Vector3) (s : App.State) :
  App.avatarState (App.onBoardPointerMove point s) = App.avatarState s /\
  (App.ikTarget s <> None ->
   App.ikTarget (App.onBoardPointerMove point s) <> None).
Proof.
  rewrite onBoardPointerMove_cases. destruct s as [st ik look ss cur th tx ob].
  destruct (nearBoard point), (vz point <? Fin 2), st, cur as [prev |];
    split; try reflexivity; cbn; trivial; discriminate.
Qed.

Lemma pointer_up_directive (s : App.State) :
  (App.avatarState (App.onBoardPointerUp s) = IDLE) \/
  (App.avatarState (App.onBoardPointerUp s) = App.avatarState s /\
   App.ikTarget (App.onBoardPointerUp s) = App.ikTarget s).
Proof.
  unfold App.onBoardPointerUp. destruct s as [st ik look ss cur th tx ob].
  cbn. destruct st, cur as [c |], (App.noText tx); cbn; tauto.
Qed.

Lemma handle_avatarDirected (e : App.Event) (s : App.State) :
  avatarDirected s -> avatarDirected (App.handle s e).
Proof.
  unfold avatarDirected. intros [Hw Ht].
  destruct e as [point | point | | pos | pos | pos | | | | txt | |];
    cbn [App.handle].
  - rewrite onBoardPointerDown_cases.
    destruct (onBoard point); cbn; split; trivial;
      try discriminate; intros [H | H]; discriminate.
  - destruct (pointer_move_directive point s) as [-> Hik].
    split; [exact Hw |]. intros H. apply Hik. now apply Ht.
  - destruct (pointer_up_directive s) as [H | [H1 H2]].
    + rewrite H. split; [discriminate |]. intros [H' | H']; discriminate.
    + rewrite H1, H2. now split.
  - unfold App.handleAIWritePos.
    destruct (App.avatarState s) eqn:Hst; cbn; rewrite ?Hst;
      split; trivial; try discriminate; intros; discriminate.
  - cbn. split; intros; discriminate.
  - cbn. split; trivial. intros; discriminate.
  - cbn. split; [discriminate |]. intros [H | H]; discriminate.
  - cbn. split; [discriminate |]. intros [H | H]; discriminate.
  - cbn. split; intros; discriminate.
  - cbn. split; [discriminate |]. intros [H | H]; discriminate.
  - cbn. split; intros; discriminate.
  - cbn. split; [discriminate |]. intros [H | H]; discriminate.
Qed.

Lemma run_avatarDirected (l : list App.Event) :
  forall s : App.State, avatarDirected s -> avatarDirected (App.run s l).
Proof.
  unfold App.run. induction l as [| e l IH]; intros s Hs.
  - exact Hs.
  - cbn [fold_left]. apply IH. now apply handle_avatarDirected.
Qed.

Lemma initial_avatarDirected : avatarDirected App.initial.
Proof. split; [discriminate |]. intros [H | H]; discriminate. Qed.

(** X14.  The application never asks the avatar to walk, and never asks it
    to think or to grab without a hand target: from the initial state,
    after any events, the avatar state is not [WALKING], and it is
    [THINKING] or [GRABBING] only with a hand target present. *)
Theorem avatar_always_directed :
  forall l : list App.Event,
    let s := App.run App.initial l in
    App.avatarState s <> WALKING /\
    (App.avatarState s = THINKING \/ App.avatarState s = GRABBING ->
     exists t : Vector3, App.ikTarget s = Some t).
Proof.
  intros l s.
  destruct (run_avatarDirected l App.initial initial_avatarDirected)
    as [Hw Ht].
  split; [exact Hw |]. intros H. specialize (Ht H). fold s in Ht.
  destruct (App.ikTarget s) as [t |]; [now exists t | contradiction].
Qed.

Lemma avatar_always_directed_witness :
  let s := App.run App.initial [App.AskAI] in
  (App.avatarState s = THINKING \/ App.avatarState s = GRABBING) /\
  exists t : Vector3, App.ikTarget s = Some t.
Proof.
  intros s.
  assert (H : App.avatarState s = THINKING \/ App.avatarState s = GRABBING)
    by (left; reflexivity).
  split; [exact H |].
  destruct (avatar_always_directed [App.AskAI]) as [_ Ht]. exact (Ht H).
Defined.

(** X15.  Whenever the application says the avatar thinks, the avatar
    stands in the middle: for any state of the application reached from
    its initial state in which the avatar state is [THINKING], one frame of
    the avatar with the props of that state sets the body target to 0,
    whatever the animator state before. *)
Theorem thinking_app_centres_body :
  forall (l : list App.Event) time delta shoulderPos (a : AnimatorState),
    let s := App.run App.initial l in
    App.avatarState s = THINKING ->
    bodyTargetX (next (useFrame (App.avatarProps s) time delta shoulderPos a))
    = Fin 0.
Proof.
  intros l time delta shoulderPos a s Hst.
  destruct (run_avatarDirected l App.initial initial_avatarDirected)
    as [_ Ht].
  fold s in Ht. specialize (Ht (or_introl Hst)).
  rewrite bodyTargetX_next. unfold App.avatarProps, locomotion.
  cbn [targetPosition state]. rewrite Hst.
  destruct (App.ikTarget s) as [t |]; [| contradiction].
  apply clampStage_inside. lra.
Qed.

Lemma thinking_app_centres_body_witness :
  let s := App.run App.initial
             [App.ShapeDragStart (vec 3 1 1); App.AskAI] in
  App.avatarState s = THINKING /\
  bodyTargetX (next (useFrame (App.avatarProps s) (Fin 0) (Fin 0.016)
                              shoulderAtMount initialState))
  = Fin 0.
Proof.
  intros s.
  assert (H : App.avatarState s = THINKING) by reflexivity.
  split; [exact H |].
  exact (thinking_app_centres_body
           [App.ShapeDragStart (vec 3 1 1); App.AskAI]
           (Fin 0) (Fin 0.016) shoulderAtMount initialState H).
Defined.

(** ** Strokes are kept *)

Lemma handle_keeps_strokes (e : App.Event) (s : App.State) :
  notClearBoard e = true ->
  exists more : list Stroke,
    App.strokes (App.handle s e) = App.strokes s ++ more.
Proof.
  intros He.
  destruct e as [point | point | | pos | pos | pos | | | | txt | |];
    try discriminate; cbn [App.handle].
  - exists []. rewrite app_nil_r, onBoardPointerDown_cases.
    now destruct (onBoard point).
  - exists []. rewrite app_nil_r. apply pointer_move_strokes.
  - destruct (pointer_up_strokes s) as [-> _].
    destruct (App.avatarState s), (App.currentStroke s) as [c |];
      try (exists []; now rewrite app_nil_r).
    now exists [c].
  - exists []. rewrite app_nil_r. unfold App.handleAIWritePos.
    now destruct (negb _).
  - exists []. now rewrite app_nil_r.
  - exists []. now rewrite app_nil_r.
  - exists []. now rewrite app_nil_r.
  - exists []. now rewrite app_nil_r.
  - exists []. now rewrite app_nil_r.
  - exists []. now rewrite app_nil_r.
  - exists []. now rewrite app_nil_r.
Qed.

(** X16.  Only cleaning the board takes strokes away: after any events
    other than [clearBoard], from any state, the finished strokes are those
    of before, in the same order, followed by the new ones. *)
Theorem strokes_only_grow :
  forall (l : list App.Event) (s : App.State),
    forallb notClearBoard l = true ->
    exists more : list Stroke,
      App.strokes (App.run s l) = App.strokes s ++ more.
Proof.
  unfold App.run. induction l as [| e l IH]; intros s Hl.
  - exists []. now rewrite app_nil_r.
  - cbn in Hl. apply andb_prop in Hl as [He Hl]. cbn [fold_left].
    destruct (handle_keeps_strokes e s He) as [m1 H1].
    destruct (IH (App.handle s e) Hl) as [m2 H2].
    exists (m1 ++ m2). now rewrite H2, H1, app_assoc.
Qed.

Lemma strokes_only_grow_witness :
  let p := vec 1 0.5 (-2) in
  let l := [App.BoardPointerDown p; App.BoardPointerMove p;
            App.BoardPointerUp; App.AskAI] in
  forallb notClearBoard l = true /\
  exists more : list Stroke,
    App.strokes (App.run App.initial l) = App.strokes App.initial ++ more.
Proof.
  intros p l.
  assert (H : forallb notClearBoard l = true) by reflexivity.
  split; [exact H |]. exact (strokes_only_grow l App.initial H).
Defined.

(** ** Drawing a stroke *)




(** * The blackboard *)

(** ** The typing effect *)

(** A substring from 0 is a prefix. *)
Lemma String_substring_0 (k : nat) (s : jsString) :
  String_substring 0 k s = firstn k s.
Proof.
  unfold String_substring.
  now rewrite Nat.max_0_l, Nat.min_0_l, Nat.sub_0_r.
Qed.

Lemma typingStep_typed (aiText : jsString) (k : nat) :
  (k <= String_length aiText)%nat ->
  Blackboard.typingStep aiText (Blackboard.mkTyping k (firstn k aiText))
  = Blackboard.mkTyping (Nat.min (S k) (String_length aiText))
      (firstn (Nat.min (S k) (String_length aiText)) aiText).
Proof.
  intros Hk. unfold Blackboard.typingStep. cbn [Blackboard.charIndex].
  rewrite String_substring_0.
  destruct aiText as [| c rest].
  - cbn in Hk. assert (k = 0)%nat by lia. subst. reflexivity.
  - cbn [App.noText negb andb].
    destruct (Nat.ltb_spec k (String_length (c :: rest))) as [Hlt | Hge].
    + rewrite Nat.min_l by lia. now rewrite Nat.add_1_r.
    + assert (k = String_length (c :: rest)) by lia. subst k.
      rewrite Nat.min_r by lia. reflexivity.
Qed.

Lemma typing_from_start (aiText : jsString) (n : nat) :
  Blackboard.typing aiText n (Blackboard.mkTyping 0 [])
  = Blackboard.mkTyping (Nat.min n (String_length aiText))
      (firstn (Nat.min n (String_length aiText)) aiText).
Proof.
  unfold Blackboard.typing. induction n as [| n IH].
  - reflexivity.
  - rewrite Nat.iter_succ, IH.
    rewrite typingStep_typed by apply Nat.le_min_r.
    destruct (Nat.le_gt_cases n (String_length aiText)) as [Hle | Hgt].
    + now rewrite (Nat.min_l n) by exact Hle.
    + rewrite (Nat.min_r n) by lia.
      now rewrite !Nat.min_r by lia.
Qed.

(** X18.  The text is typed one code unit at a time and stops when it is
    complete: after [n] steps of the typing effect from its reset state,
    [charIndex] is [min n (length aiText)] and the text shown is the first
    so many code units of [aiText]; from [length aiText] steps on the text
    shown is [aiText] itself, and an empty [aiText] keeps the reset
    state.  Lengths and prefixes are those of JavaScript, in UTF-16 code
    units. *)
Theorem typing_shows_prefix :
  forall (aiText : jsString) (n k : nat),
    let reset := Blackboard.mkTyping 0 [] in
    Blackboard.typing aiText n reset
    = Blackboard.mkTyping (Nat.min n (String_length aiText))
        (firstn (Nat.min n (String_length aiText)) aiText)
    /\ Blackboard.typing aiText (String_length aiText + k) reset
       = Blackboard.mkTyping (String_length aiText) aiText
    /\ Blackboard.typing [] n reset = reset.
Proof.
  intros aiText n k reset. subst reset. rewrite !typing_from_start.
  split; [reflexivity |]. split.
  - rewrite Nat.min_r by lia. unfold String_length. now rewrite firstn_all.
  - cbn [String_length List.length]. now rewrite Nat.min_0_r.
Qed.

(** ** The path of a stroke *)

Lemma curves_length (ps : list DrawingPoint) :
  List.length (Blackboard.curves ps) = Nat.pred (List.length ps).
Proof.
  induction ps as [| p1 [| p2 rest] IH]; try reflexivity.
  cbn [Blackboard.curves List.length Nat.pred] in *. now rewrite IH.
Qed.

(** X19.  The path of a stroke by its number of points: a stroke without
    points traces nothing; a stroke of one point is a single [moveTo],
    which draws nothing; a stroke of [n >= 2] points traces [n] commands,
    the first a [moveTo] at the pixel of the first point and the last a
    [lineTo] at the pixel of the last point. *)
Theorem stroke_path_shape :
  forall (col : string) (p0 : DrawingPoint) (rest : list DrawingPoint),
    Blackboard.strokePath (mkStroke [] col) = [] /\
    Blackboard.strokePath (mkStroke [p0] col)
    = [Blackboard.MoveTo (Blackboard.pixelX p0) (Blackboard.pixelY p0)] /\
    forall p1 : DrawingPoint,
      let path := Blackboard.strokePath (mkStroke (p0 :: p1 :: rest) col) in
      let last := List.last (p1 :: rest) p0 in
      List.length path = List.length (p0 :: p1 :: rest) /\
      List.hd_error path
      = Some (Blackboard.MoveTo (Blackboard.pixelX p0)
                                (Blackboard.pixelY p0)) /\
      List.last path (Blackboard.MoveTo (Fin 0) (Fin 0))
      = Blackboard.LineTo (Blackboard.pixelX last) (Blackboard.pixelY last).
Proof.
  intros col p0 rest. split; [reflexivity |]. split; [reflexivity |].
  intros p1 path last. subst path last.
  unfold Blackboard.strokePath. cbn [points].
  split; [| split].
  - cbn [List.length]. rewrite length_app, curves_length.
    cbn [List.length Nat.pred]. lia.
  - reflexivity.
  - change (?a :: ?l ++ [?b]) with ((a :: l) ++ [b]).
    apply last_last.
Qed.

(** ** Strokes on the canvas *)









(** ** The hand at the end of the text *)

Lemma aiWritePos_Fin (drawX drawY : R) :
  Blackboard.aiWritePos (Fin drawX) (Fin drawY)
  = vec ((drawX + 20) / 1024 * 8 - 4)
        ((1 - (drawY + 40) / 512) * 4 - 2) (-1.8).
Proof.
  unfold Blackboard.aiWritePos, Blackboard.canvasWidth,
    Blackboard.canvasHeight, vec.
  now rewrite !add_Fin, !div_Fin, !sub_Fin, !mul_Fin, !sub_Fin by lra.
Qed.

(** X21.  The hand follows the pen onto the board.  For a real pen position
    [(drawX, drawY)] on the canvas, the world position given to the avatar
    lies in the plane [z = -1.8] and maps back, by [mapWorldToUV], to the
    texture point [((drawX + 20) / 1024, 1 - (drawY + 40) / 512)]; it is on
    the board exactly when [-20 <= drawX <= 1004] and
    [-40 <= drawY <= 472]. *)
Theorem ai_hand_follows_pen :
  forall drawX drawY : R,
    let pos := Blackboard.aiWritePos (Fin drawX) (Fin drawY) in
    vz pos = Fin (-1.8) /\
    App.mapWorldToUV pos
    = (Fin ((drawX + 20) / 1024), Fin (1 - (drawY + 40) / 512)) /\
    (onBoard pos = true <->
     (-20 <= drawX <= 1004)%R /\ (-40 <= drawY <= 472)%R).
Proof.
  intros drawX drawY pos. subst pos. rewrite aiWritePos_Fin.
  split; [reflexivity |]. split.
  - rewrite mapWorldToUV_vec. f_equal; f_equal; lra.
  - rewrite onBoard_vec. lra.
Qed.

(** * The shapes *)

(** X22.  A dragged shape keeps away from the board.  A pointer move over
    a shape that is being dragged puts the mesh at the pointer with its [z]
    raised to at least 0.5 and gives that same position to the avatar: the
    [x] and [y] are those of the pointer and the [z] is never below 0.5;
    over a shape that is not being dragged it changes and gives nothing. *)
Theorem dragged_shape_keeps_off_board :
  forall (point : Vector3) (m : Shapes.Mesh),
    match Shapes.onPointerMove point m with
    | (m', Some newPos) =>
        Shapes.dragging m = true /\
        Shapes.dragging m' = true /\
        Shapes.position m' = newPos /\
        vx newPos = vx point /\ vy newPos = vy point /\
        (vz newPos <? Fin 0.5) = false
    | (m', None) => Shapes.dragging m = false /\ m' = m
    end.
Proof.
  intros point m. unfold Shapes.onPointerMove.
  destruct (Shapes.dragging m) eqn:Hd; [| now split].
  repeat split; trivial.
  cbn [withZ vz]. destruct (vz point) as [z | | |].
  - rewrite Math_max_Fin. unfold ltb, Rmax.
    destruct (Rle_dec 0.5 z); js_cases; reflexivity.
  - reflexivity.
  - cbn. js_cases; reflexivity.
  - reflexivity.
Qed.

(** ** The curve of a graph *)

Lemma curvePixelY_sin (label : string) (x : nat) :
  Shapes.includes "sin" label = true ->
  Shapes.curvePixelY (Some label) x
  = Fin (256 - sin ((INR x - 256) / 40) * 2 * 40).
Proof.
  intros H. unfold Shapes.curvePixelY. rewrite H.
  now rewrite sub_Fin, div_Fin by lra.
Qed.

Lemma curvePixelY_cos (label : string) (x : nat) :
  Shapes.includes "sin" label = false ->
  Shapes.includes "cos" label = true ->
  Shapes.curvePixelY (Some label) x
  = Fin (256 - cos ((INR x - 256) / 40) * 2 * 40).
Proof.
  intros Hs Hc. unfold Shapes.curvePixelY. rewrite Hs, Hc.
  now rewrite sub_Fin, div_Fin by lra.
Qed.

(** X23.  A sine or cosine curve stays on its texture: for a label that
    contains [sin] or [cos], the curve is in a row of [176, 336] in every
    column, and [sin] is looked for first. *)
Theorem trig_curve_on_texture :
  forall (label : string) (x : nat),
    Shapes.includes "sin" label = true \/
    Shapes.includes "cos" label = true ->
    (Shapes.includes "sin" label = true ->
     Shapes.curvePixelY (Some label) x
     = Fin (256 - sin ((INR x - 256) / 40) * 2 * 40)) /\
    exists y : R,
      Shapes.curvePixelY (Some label) x = Fin y /\ (176 <= y <= 336)%R.
Proof.
  intros label x H. split; [apply curvePixelY_sin |].
  destruct (Shapes.includes "sin" label) eqn:Hs.
  - rewrite curvePixelY_sin by exact Hs.
    pose proof (SIN_bound ((INR x - 256) / 40)) as [H1 H2].
    eexists. split; [reflexivity | lra].
  - destruct H as [H | H]; [discriminate |].
    rewrite curvePixelY_cos by assumption.
    pose proof (COS_bound ((INR x - 256) / 40)) as [H1 H2].
    eexists. split; [reflexivity | lra].
Qed.

Lemma trig_curve_on_texture_witness :
  Shapes.includes "sin" "y = sin(x) + cos(x)" = true /\
  exists y : R,
    Shapes.curvePixelY (Some "y = sin(x) + cos(x)"%string) 100 = Fin y /\
    (176 <= y <= 336)%R.
Proof.
  assert (H : Shapes.includes "sin" "y = sin(x) + cos(x)" = true)
    by reflexivity.
  split; [exact H |].
  apply (trig_curve_on_texture "y = sin(x) + cos(x)" 100). now left.
Defined.

(** X24.  The default curve runs off its texture at both sides: for a
    shape without a label, or with a label that contains neither [sin] nor
    [cos], the curve in the column [x] is in the row
    [256 - (x - 256)^2 / 200], which is on the texture (not above its top
    row 0) exactly for the columns 30 to 482. *)
Theorem parabola_on_texture :
  forall (label : option string) (x : nat),
    match label with
    | Some l =>
        Shapes.includes "sin" l = false /\ Shapes.includes "cos" l = false
    | None => True
    end ->
    Shapes.curvePixelY label x
    = Fin (256 - (INR x - 256) * (INR x - 256) / 200) /\
    ((0 <= 256 - (INR x - 256) * (INR x - 256) / 200)%R <->
     (30 <= x <= 482)%nat).
Proof.
  intros label x H. split.
  - unfold Shapes.curvePixelY.
    destruct label as [l |]; [destruct H as [-> ->] |];
      rewrite sub_Fin, div_Fin by lra; cbn [mul sub add neg];
      f_equal; lra.
  - split.
    + intros Hy.
      destruct (Nat.le_gt_cases 30 x) as [Hlo | Hlo];
        [destruct (Nat.le_gt_cases x 482) as [Hhi | Hhi];
         [lia | exfalso] | exfalso].
      * apply le_INR in Hhi. change (INR 483) with (INR 483) in Hhi.
        replace (INR 483) with 483%R in Hhi by (simpl; lra). nra.
      * apply le_INR in Hlo.
        replace (INR x) with (INR (S x) - 1)%R in Hy
          by (rewrite S_INR; lra).
        replace (INR 30) with 30%R in Hlo by (simpl; lra). nra.
    + intros [Hlo Hhi]. apply le_INR in Hlo, Hhi.
      replace (INR 30) with 30%R in Hlo by (simpl; lra).
      replace (INR 482) with 482%R in Hhi by (simpl; lra). nra.
Qed.

Lemma parabola_on_texture_witness :
  Shapes.curvePixelY None 256
  = Fin (256 - (INR 256 - 256) * (INR 256 - 256) / 200) /\
  ((0 <= 256 - (INR 256 - 256) * (INR 256 - 256) / 200)%R <->
   (30 <= 256 <= 482)%nat).
Proof. exact (parabola_on_texture None 256 I). Defined.

(** * Leaning *)

Lemma reachExtension_Fin (d : R) :
  (0 <= d)%R ->
  exists r : R, reachExtension (Fin d) = Fin r /\ (0 <= r <= 1)%R.
Proof.
  intros Hd. unfold reachExtension. rewrite maxReach_Fin.
  rewrite div_Fin, Math_min_Fin by lra.
  eexists. split; [reflexivity |].
  split; [apply Rmin_glb; [| lra] | apply Rmin_r].
  apply Rmult_le_pos; [exact Hd |]. lra.
Qed.

(** X26.  Writing leans less than grabbing: for a distance [d >= 0] and a
    finite point of interest at the sideways offset [x], the roll the spine
    leans towards is a real of absolute value at most [0.05 |x|] in
    [WRITING], at most [0.2 |x|] in [GRABBING], and 0 in the other
    states. *)
Theorem side_lean_bounded :
  forall props (d x y z : R),
    (0 <= d)%R ->
    exists lz : R,
      targetLeanZ props (Fin d) (vec x y z) = Fin lz /\
      (Rabs lz <= sideLeanFactor (state props) * Rabs x)%R.
Proof.
  intros props d x y z Hd.
  destruct (reachExtension_Fin d Hd) as [r [Hr Hrr]].
  pose proof (Rabs_pos x) as Hx.
  assert (Hneg : Rabs (- x) = Rabs x) by apply Rabs_Ropp.
  unfold targetLeanZ, reaching. rewrite Hr.
  destruct (state props); cbn [state_eqb orb sideLeanFactor vec vx neg];
    rewrite ?mul_Fin; eexists; (split; [reflexivity |]);
    rewrite ?Rabs_R0, ?Rabs_mult, ?Hneg;
    try (rewrite (Rabs_pos_eq r) by lra);
    try (rewrite (Rabs_pos_eq 0.05) by lra);
    try (rewrite (Rabs_pos_eq 0.2) by lra); nra.
Qed.

Lemma side_lean_bounded_witness :
  (0 <= 2)%R /\
  exists lz : R,
    targetLeanZ (mkProps (Some (vec 3 1 1)) GRABBING None) (Fin 2)
                (vec 3 1 1) = Fin lz /\
    (Rabs lz <= 0.2 * Rabs 3)%R.
Proof.
  assert (H : (0 <= 2)%R) by lra.
  split; [exact H |].
  exact (side_lean_bounded (mkProps (Some (vec 3 1 1)) GRABBING None)
           2 3 1 1 H).
Defined.
